(** * salarycalt: the salary planner's arithmetic

    A shallow embedding of the two computational units of the repository:

    - [src/lib/malaysiaTax.ts]: the progressive tax table [BRACKETS],
      [computeAnnualTax], [estimateMonthlyTaxFromAnnualChargeable] and
      [buildAnnualChargeableIncome];
    - [src/components/SalaryCalculator.vue]: the computed values [gross],
      [epf], [socso], [eis], [totalDeductions], [net], [necessities],
      [necessityPct], [chosenFormula] and [allocations].

    A JavaScript number is modelled as an exact rational ([Q]): the finite
    numbers with exact arithmetic.  NaN appears only where the source coerces
    it away ([Number(x) || 0]); infinities and rounding are outside this
    model.  Module [F64] repeats the functions of both units over IEEE 754
    binary64 (the kernel's primitive floats), which is what a JavaScript
    engine computes with, for statements about concrete values and about
    rounding. *)

From Stdlib Require Import QArith Qround Qminmax ZArith List Bool String.
From Stdlib Require Import DecimalString Lqa Lia.
From Stdlib Require Import Floats.
Import ListNotations.

#[local] Set Warnings "-inexact-float".

Local Open Scope Q_scope.

(** ** JavaScript helpers over exact numbers *)

(** [Math.max(a, b)] and [Math.min(a, b)] on finite numbers. *)
Definition Math_max (a b : Q) : Q := if Qle_bool a b then b else a.
Definition Math_min (a b : Q) : Q := if Qle_bool a b then a else b.

(** [a < b], as a boolean. *)
Definition Qlt_bool (a b : Q) : bool := negb (Qle_bool b a).

(** [Math.ceil(x)], again a number. *)
Definition Math_ceil (x : Q) : Q := inject_Z (Qceiling x).

(** ** src/lib/malaysiaTax.ts *)

Record Bracket := {
  upTo : option Q;      (* None = no upper bound *)
  rate : Q;             (* e.g. 0.25 for 25% *)
  baseTax : Q;          (* cumulative tax for previous brackets *)
  lowerBound : Q        (* lower bound of this bracket *)
}.

Definition BRACKETS : list Bracket := [
  (* A *) {| lowerBound := 0;         upTo := Some 5_000;     rate := 0.0;  baseTax := 0 |};
  (* B *) {| lowerBound := 5_000;     upTo := Some 20_000;    rate := 0.01; baseTax := 0 |};
  (* C *) {| lowerBound := 20_000;    upTo := Some 35_000;    rate := 0.03; baseTax := 150 |};
  (* D *) {| lowerBound := 35_000;    upTo := Some 50_000;    rate := 0.06; baseTax := 600 |};
  (* E *) {| lowerBound := 50_000;    upTo := Some 70_000;    rate := 0.11; baseTax := 1_500 |};
  (* F *) {| lowerBound := 70_000;    upTo := Some 100_000;   rate := 0.19; baseTax := 3_700 |};
  (* G *) {| lowerBound := 100_000;   upTo := Some 400_000;   rate := 0.25; baseTax := 9_400 |};
  (* H *) {| lowerBound := 400_000;   upTo := Some 600_000;   rate := 0.26; baseTax := 84_400 |};
  (* I *) {| lowerBound := 600_000;   upTo := Some 2_000_000; rate := 0.28; baseTax := 136_400 |};
  (* J *) {| lowerBound := 2_000_000; upTo := None;           rate := 0.3;  baseTax := 528_400 |}
].

(** The options object of [computeAnnualTax]; an absent property is [None],
    and so is an absent object. *)
Record TaxOpts := {
  applySelfRebate : option bool;
  spouseRebate : option bool
}.

(** [opts?.p]: the property [p] of an options object that may be absent. *)
Definition opt_chain {A B} (opts : option A) (p : A -> option B) : option B :=
  match opts with Some o => p o | None => None end.

(** [v !== false] and [v === true]. *)
Definition not_false (p : option bool) : bool :=
  match p with Some false => false | _ => true end.
Definition is_true (p : option bool) : bool :=
  match p with Some true => true | _ => false end.

(** The predicate handed to [BRACKETS.find]. *)
Definition in_bracket (ci : Q) (b : Bracket) : bool :=
  match upTo b with
  | None => Qlt_bool (lowerBound b) ci
  | Some u => Qlt_bool (lowerBound b) ci && Qle_bool ci u
  end.

Definition find_bracket (ci : Q) : option Bracket :=
  find (in_bracket ci) BRACKETS.

Definition computeAnnualTax (chargeableIncome : Q) (opts : option TaxOpts) : Q :=
  let ci := Math_max 0 chargeableIncome in
  if Qle_bool ci 5_000 then 0
  else
    match find_bracket ci with
    | None => 0
    | Some bracket =>
        let taxableInBracket :=
          (match upTo bracket with None => ci | Some u => Math_min ci u end)
          - lowerBound bracket in
        let tax := baseTax bracket + taxableInBracket * rate bracket in
        let applySelf := not_false (opt_chain opts applySelfRebate) in
        let spouse := is_true (opt_chain opts spouseRebate) in
        if Qle_bool ci 35_000 && (applySelf || spouse) then
          let rebate := (if applySelf then 400 else 0) + (if spouse then 400 else 0) in
          Math_max 0 (tax - rebate)
        else tax
    end.

Definition estimateMonthlyTaxFromAnnualChargeable
    (chargeableIncome : Q) (opts : option TaxOpts) : Q :=
  computeAnnualTax chargeableIncome opts / 12.

(** The options object of [buildAnnualChargeableIncome]; a property that is
    absent (or null) is [None]. *)
Record ReliefOpts := {
  epfMonthly : option Q;
  socsoMonthly : option Q;
  eisMonthly : option Q
}.

(** [x ?? 0]. *)
Definition or_default0 (x : option Q) : Q :=
  match x with Some v => v | None => 0 end.

Definition is_some {A} (x : option A) : bool :=
  match x with Some _ => true | None => false end.

Definition buildAnnualChargeableIncome
    (monthlyGross annualReliefs : Q) (opts : option ReliefOpts) : Q :=
  let annualGross := Math_max 0 monthlyGross * 12 in
  let totalReliefs := Math_max 0 annualReliefs in
  let totalReliefs :=
    match opt_chain opts epfMonthly with
    | Some e =>
        let epfAnnual := Math_max 0 e * 12 in
        totalReliefs + Math_min epfAnnual 7_000
    | None => totalReliefs
    end in
  let totalReliefs :=
    if is_some (opt_chain opts socsoMonthly) || is_some (opt_chain opts eisMonthly)
    then
      let socsoEisAnnual :=
        (Math_max 0 (or_default0 (opt_chain opts socsoMonthly))
         + Math_max 0 (or_default0 (opt_chain opts eisMonthly))) * 12 in
      totalReliefs + Math_min socsoEisAnnual 350
    else totalReliefs in
  Math_max 0 (annualGross - totalReliefs).

(** ** src/components/SalaryCalculator.vue *)

(** What a field of the reactive form can hold when the source coerces it
    with [Number(x) || 0]: the inputs are bound with [v-model.number], which
    stores the parsed number, or the raw text when it does not parse. *)
Inductive field :=
| FNum (q : Q)   (* a number *)
| FBlank         (* the empty string of a cleared input; [Number("")] is 0 *)
| FNaN.          (* NaN, or any value [Number] maps to NaN *)

(** [Number(v)]; [None] is NaN. *)
Definition Number (v : field) : option Q :=
  match v with
  | FNum q => Some q
  | FBlank => Some 0
  | FNaN => None
  end.

(** [x || 0] on a number: 0 and NaN are falsy. *)
Definition or_zero (x : option Q) : Q :=
  match x with
  | Some q => if Qeq_bool q 0 then 0 else q
  | None => 0
  end.

Record Formula := {
  name : string;
  needs : Q;     (* percent *)
  wants : Q;     (* percent *)
  savings : Q    (* percent *)
}.

Definition DEFAULT_FORMULAS : list Formula := [
  {| name := "50 / 30 / 20"; needs := 50; wants := 30; savings := 20 |};
  {| name := "70 / 20 / 10"; needs := 70; wants := 20; savings := 10 |};
  {| name := "60 / 20 / 20"; needs := 60; wants := 20; savings := 20 |}
].

(** The reactive [form].  The rates and ceilings are used as numbers without
    coercion, so they are numbers here; the salary and the necessities go
    through [Number(x) || 0]. *)
Record Form := {
  salary : field;
  epfRate : Q;
  socsoRate : Q;
  socsoCeiling : Q;
  eisRate : Q;
  eisCeiling : Q;
  house : field;
  car : field;
  food : field;
  utilities : field;
  otherNecessities : field
}.

Definition getDefaultForm : Form := {|
  salary := FNum 0;
  epfRate := 11;
  socsoRate := 0.5;
  socsoCeiling := 6000;
  eisRate := 0.2;
  eisCeiling := 6000;
  house := FNum 0;
  car := FNum 0;
  food := FNum 0;
  utilities := FNum 0;
  otherNecessities := FNum 0
|}.

Definition gross (form : Form) : Q :=
  Math_max 0 (or_zero (Number (salary form))).
Definition epf (form : Form) : Q :=
  gross form * (epfRate form / 100).
Definition socso (form : Form) : Q :=
  Math_min (gross form) (socsoCeiling form) * (socsoRate form / 100).
Definition eis (form : Form) : Q :=
  Math_min (gross form) (eisCeiling form) * (eisRate form / 100).
Definition totalDeductions (form : Form) : Q :=
  epf form + socso form + eis form.
Definition net (form : Form) : Q :=
  Math_max 0 (gross form - totalDeductions form).

Definition necessities (form : Form) : Q :=
  fold_left (fun a b => a + or_zero (Number b))
    (map (fun k : Form -> field => k form)
       [house; car; food; utilities; otherNecessities])
    0.

Definition necessityPct (form : Form) : Q :=
  if Qlt_bool 0 (net form) then necessities form / net form * 100 else 0.

(** [Array.prototype.sort] with a comparator: a stable sort, [x] goes before
    [y] when [cmp x y < 0]. *)
Fixpoint insert_by {A} (cmp : A -> A -> Q) (x : A) (l : list A) : list A :=
  match l with
  | [] => [x]
  | y :: l' =>
      if Qlt_bool (cmp x y) 0 then x :: y :: l' else y :: insert_by cmp x l'
  end.

Definition sort_by {A} (cmp : A -> A -> Q) (l : list A) : list A :=
  fold_left (fun sorted x => insert_by cmp x sorted) l [].

(** A number inside a template literal.  Only whole numbers are printed by
    the source (a ceiling, and sums and differences of whole numbers), and
    this is their decimal numeral. *)
Definition show_num (q : Q) : string :=
  NilZero.string_of_int (Z.to_int (Qfloor q)).

(** [chosenFormula], as a function of the value of [necessityPct]. *)
Definition chosenFormula_at (pct : Q) : Formula :=
  (* Try to find a preset formula that fits *)
  match find (fun f => Qle_bool pct (needs f))
             (sort_by (fun a b => needs a - needs b) DEFAULT_FORMULAS) with
  | Some fit => fit
  | None =>
      (* If none fits, craft a custom one prioritizing at least 10% savings *)
      let needs := Math_min 100 (Math_ceil pct) in
      let savings := if Qlt_bool 70 needs then 10 else 20 in
      let wants := 100 - needs - savings in
      let savings := if Qlt_bool wants 0 then Math_max 0 (100 - needs) else savings in
      let wants := if Qlt_bool wants 0 then 100 - needs - savings else wants in
      {| name := show_num needs ++ " / " ++ show_num wants ++ " / "
                 ++ show_num savings ++ " (custom)";
         needs := needs; wants := wants; savings := savings |}
  end.

Definition chosenFormula (form : Form) : Formula :=
  chosenFormula_at (necessityPct form).

Record Allocations := {
  needsAmount : Q;
  wantsAmount : Q;
  savingsAmount : Q
}.

Definition allocations (form : Form) : Allocations :=
  let f := chosenFormula form in
  {| needsAmount := (needs f / 100) * net form;
     wantsAmount := (wants f / 100) * net form;
     savingsAmount := (savings f / 100) * net form |}.

(** ** The same functions over IEEE 754 binary64

    A JavaScript number is a binary64 float and [+], [-], [*], [/] round to
    nearest, ties to even: the kernel's primitive floats have exactly these
    operations.  A decimal literal denotes the nearest binary64 value, in
    JavaScript as here.  Form fields are numbers in this module (no text),
    and the label of a formula is left out. *)

Module F64.
Local Open Scope float_scope.

(** [Math.max] and [Math.min]: NaN when an argument is NaN, and +0 above -0. *)
Definition Math_max (a b : float) : float :=
  if a <? b then b
  else if b <? a then a
  else if a =? b then (if is_zero a then a + b else a)
  else nan.
Definition Math_min (a b : float) : float :=
  if a <? b then a
  else if b <? a then b
  else if a =? b then (if is_zero a then - (- a - b) else a)
  else nan.

(** [Math.ceil]: a float of magnitude 2^52 or more is whole already; below
    that, adding and removing 2^52 rounds to a whole number, which is the
    ceiling or one less. *)
Definition two52 : float := 4503599627370496.
Definition Math_ceil (x : float) : float :=
  if is_nan x then x
  else if two52 <=? abs x then x
  else
    let r := if 0 <=? x then (x + two52) - two52 else (x - two52) + two52 in
    if r <? x then r + 1 else r.

(** [x || 0] on a number. *)
Definition or_zero (x : float) : float :=
  if is_nan x || is_zero x then 0 else x.

Record Bracket := {
  upTo : option float;
  rate : float;
  baseTax : float;
  lowerBound : float
}.

Definition BRACKETS : list Bracket := [
  {| lowerBound := 0;       upTo := Some 5000;    rate := 0.0;  baseTax := 0 |};
  {| lowerBound := 5000;    upTo := Some 20000;   rate := 0.01; baseTax := 0 |};
  {| lowerBound := 20000;   upTo := Some 35000;   rate := 0.03; baseTax := 150 |};
  {| lowerBound := 35000;   upTo := Some 50000;   rate := 0.06; baseTax := 600 |};
  {| lowerBound := 50000;   upTo := Some 70000;   rate := 0.11; baseTax := 1500 |};
  {| lowerBound := 70000;   upTo := Some 100000;  rate := 0.19; baseTax := 3700 |};
  {| lowerBound := 100000;  upTo := Some 400000;  rate := 0.25; baseTax := 9400 |};
  {| lowerBound := 400000;  upTo := Some 600000;  rate := 0.26; baseTax := 84400 |};
  {| lowerBound := 600000;  upTo := Some 2000000; rate := 0.28; baseTax := 136400 |};
  {| lowerBound := 2000000; upTo := None;         rate := 0.3;  baseTax := 528400 |}
].

Definition in_bracket (ci : float) (b : Bracket) : bool :=
  match upTo b with
  | None => lowerBound b <? ci
  | Some u => (lowerBound b <? ci) && (ci <=? u)
  end.

Definition computeAnnualTax (chargeableIncome : float) (opts : option TaxOpts) : float :=
  let ci := Math_max 0 chargeableIncome in
  if ci <=? 5000 then 0
  else
    match find (in_bracket ci) BRACKETS with
    | None => 0
    | Some bracket =>
        let taxableInBracket :=
          (match upTo bracket with None => ci | Some u => Math_min ci u end)
          - lowerBound bracket in
        let tax := baseTax bracket + taxableInBracket * rate bracket in
        let applySelf := not_false (opt_chain opts applySelfRebate) in
        let spouse := is_true (opt_chain opts spouseRebate) in
        if (ci <=? 35000) && (applySelf || spouse) then
          let rebate := (if applySelf then 400 else 0) + (if spouse then 400 else 0) in
          Math_max 0 (tax - rebate)
        else tax
    end.

Record ReliefOpts := {
  epfMonthly : option float;
  socsoMonthly : option float;
  eisMonthly : option float
}.

Definition or_default0 (x : option float) : float :=
  match x with Some v => v | None => 0 end.

Definition buildAnnualChargeableIncome
    (monthlyGross annualReliefs : float) (opts : option ReliefOpts) : float :=
  let annualGross := Math_max 0 monthlyGross * 12 in
  let totalReliefs := Math_max 0 annualReliefs in
  let totalReliefs :=
    match opt_chain opts epfMonthly with
    | Some e =>
        let epfAnnual := Math_max 0 e * 12 in
        totalReliefs + Math_min epfAnnual 7000
    | None => totalReliefs
    end in
  let totalReliefs :=
    if is_some (opt_chain opts socsoMonthly) || is_some (opt_chain opts eisMonthly)
    then
      let socsoEisAnnual :=
        (Math_max 0 (or_default0 (opt_chain opts socsoMonthly))
         + Math_max 0 (or_default0 (opt_chain opts eisMonthly))) * 12 in
      totalReliefs + Math_min socsoEisAnnual 350
    else totalReliefs in
  Math_max 0 (annualGross - totalReliefs).

Record Formula := {
  needs : float;
  wants : float;
  savings : float
}.

Definition DEFAULT_FORMULAS : list Formula := [
  {| needs := 50; wants := 30; savings := 20 |};
  {| needs := 70; wants := 20; savings := 10 |};
  {| needs := 60; wants := 20; savings := 20 |}
].

Record Form := {
  salary : float;
  epfRate : float;
  socsoRate : float;
  socsoCeiling : float;
  eisRate : float;
  eisCeiling : float;
  house : float;
  car : float;
  food : float;
  utilities : float;
  otherNecessities : float
}.

Definition getDefaultForm : Form := {|
  salary := 0;
  epfRate := 11;
  socsoRate := 0.5;
  socsoCeiling := 6000;
  eisRate := 0.2;
  eisCeiling := 6000;
  house := 0;
  car := 0;
  food := 0;
  utilities := 0;
  otherNecessities := 0
|}.

Definition gross (form : Form) : float :=
  Math_max 0 (or_zero (salary form)).
Definition epf (form : Form) : float :=
  gross form * (epfRate form / 100).
Definition socso (form : Form) : float :=
  Math_min (gross form) (socsoCeiling form) * (socsoRate form / 100).
Definition eis (form : Form) : float :=
  Math_min (gross form) (eisCeiling form) * (eisRate form / 100).
Definition totalDeductions (form : Form) : float :=
  epf form + socso form + eis form.
Definition net (form : Form) : float :=
  Math_max 0 (gross form - totalDeductions form).

Definition necessities (form : Form) : float :=
  fold_left (fun a b => a + or_zero b)
    (map (fun k : Form -> float => k form)
       [house; car; food; utilities; otherNecessities])
    0.

Definition necessityPct (form : Form) : float :=
  if 0 <? net form then necessities form / net form * 100 else 0.

Fixpoint insert_by {A} (cmp : A -> A -> float) (x : A) (l : list A) : list A :=
  match l with
  | [] => [x]
  | y :: l' =>
      if cmp x y <? 0 then x :: y :: l' else y :: insert_by cmp x l'
  end.

Definition sort_by {A} (cmp : A -> A -> float) (l : list A) : list A :=
  fold_left (fun sorted x => insert_by cmp x sorted) l [].

Definition chosenFormula (form : Form) : Formula :=
  let pct := necessityPct form in
  match find (fun f => pct <=? needs f)
             (sort_by (fun a b => needs a - needs b) DEFAULT_FORMULAS) with
  | Some fit => fit
  | None =>
      let needs := Math_min 100 (Math_ceil pct) in
      let savings := if 70 <? needs then 10 else 20 in
      let wants := 100 - needs - savings in
      let savings := if wants <? 0 then Math_max 0 (100 - needs) else savings in
      let wants := if wants <? 0 then 100 - needs - savings else wants in
      {| needs := needs; wants := wants; savings := savings |}
  end.

Record Allocations := {
  needsAmount : float;
  wantsAmount : float;
  savingsAmount : float
}.

Definition allocations (form : Form) : Allocations :=
  let f := chosenFormula form in
  {| needsAmount := (needs f / 100) * net form;
     wantsAmount := (wants f / 100) * net form;
     savingsAmount := (savings f / 100) * net form |}.


End F64.

(** ** Statements of the specification, in its own words *)

(** The tax a bracket's formula gives at income [x], before any rebate. *)
Definition bracket_formula (b : Bracket) (x : Q) : Q :=
  baseTax b + (x - lowerBound b) * rate b.

(** A table is chained when every bracket but the last has an upper bound
    above its lower bound, the next bracket starts at that bound with, as
    base tax, the tax of this bracket's formula there, and the last bracket
    has no upper bound. *)
Fixpoint chained (l : list Bracket) : Prop :=
  match l with
  | [] => False
  | b1 :: tl =>
      match tl with
      | [] => upTo b1 = None
      | b2 :: _ =>
          (exists u, upTo b1 = Some u /\ lowerBound b1 < u /\
                     lowerBound b2 == u /\ baseTax b2 == bracket_formula b1 u)
          /\ chained tl
      end
  end.

(** The interval of the [i]-th bracket as the specification writes it:
    [[0, 5000]] for the first, [(lower, upper]] for the others, and
    [(lower, infinity)] for the last. *)
Definition covers (i : nat) (b : Bracket) (x : Q) : Prop :=
  (if Nat.eqb i 0 then lowerBound b <= x else lowerBound b < x) /\
  match upTo b with Some u => x <= u | None => True end.

(** The tax [computeAnnualTax] computes from a table before the rebate: the
    bracket found, and its formula at the income (capped at the bracket's
    upper bound). *)
Definition table_tax (l : list Bracket) (ci : Q) : Q :=
  match find (in_bracket ci) l with
  | None => 0
  | Some bracket =>
      baseTax bracket
      + ((match upTo bracket with None => ci | Some u => Math_min ci u end)
         - lowerBound bracket) * rate bracket
  end.

(** The lower bound a table starts at. *)
Definition table_start (l : list Bracket) : Q :=
  match l with b :: _ => lowerBound b | [] => 0 end.
Definition table_base (l : list Bracket) : Q :=
  match l with b :: _ => baseTax b | [] => 0 end.

(** The reliefs of [buildAnnualChargeableIncome] in the specification's
    words, with the standard library's [Qmax] and [Qmin]: a monthly
    contribution, when supplied, is floored at 0 and annualized (times 12);
    the EPF relief is that capped at 7000, the SOCSO and EIS relief is the
    two together capped at 350. *)
Definition spec_epf_relief (epf : option Q) : Q :=
  match epf with
  | Some e => Qmin (Qmax 0 e * 12) 7000
  | None => 0
  end.

Definition spec_socso_eis_relief (socso eis : option Q) : Q :=
  match socso, eis with
  | None, None => 0
  | _, _ => Qmin ((Qmax 0 (or_default0 socso) + Qmax 0 (or_default0 eis)) * 12) 350
  end.

Definition spec_chargeable_income
    (monthlyGross annualReliefs : Q) (epf socso eis : option Q) : Q :=
  let annualGross := Qmax 0 monthlyGross * 12 in
  let totalReliefs :=
    Qmax 0 annualReliefs + spec_epf_relief epf + spec_socso_eis_relief socso eis in
  Qmax 0 (annualGross - totalReliefs).

(** The options [{applySelfRebate: false}] and [{epfMonthly: 550}]. *)
Definition no_self_rebate : option TaxOpts :=
  Some {| applySelfRebate := Some false; spouseRebate := None |}.
Definition epf_550 : option ReliefOpts :=
  Some {| epfMonthly := Some 550; socsoMonthly := None; eisMonthly := None |}.
Definition f64_epf_550 : option F64.ReliefOpts :=
  Some {| F64.epfMonthly := Some 550%float; F64.socsoMonthly := None;
          F64.eisMonthly := None |}.

(** The necessities total in the specification's words: every field is
    coerced to 0 when it is not a number, and floored at 0 on its own. *)
Definition coerce (v : field) : Q :=
  match v with FNum q => q | FBlank | FNaN => 0 end.

Definition spec_necessitiesTotal (form : Form) : Q :=
  Qmax 0 (coerce (house form)) + Qmax 0 (coerce (car form))
  + Qmax 0 (coerce (food form)) + Qmax 0 (coerce (utilities form))
  + Qmax 0 (coerce (otherNecessities form)).

(** The default form with -100 typed into the housing field. *)
Definition negative_house : Form := {|
  salary := FNum 0;
  epfRate := 11;
  socsoRate := 0.5;
  socsoCeiling := 6000;
  eisRate := 0.2;
  eisCeiling := 6000;
  house := FNum (-100);
  car := FNum 0;
  food := FNum 0;
  utilities := FNum 0;
  otherNecessities := FNum 0
|}.

(** The custom formula in the specification's words. *)
Definition spec_custom_needs (pct : Q) : Q :=
  Qmin 100 (inject_Z (Qceiling pct)).

Definition spec_custom_savings (pct : Q) : Q :=
  let needs := spec_custom_needs pct in
  let savings := if Qlt_le_dec 70 needs then 10 else 20 in
  let wants := 100 - needs - savings in
  if Qlt_le_dec wants 0 then Qmax 0 (100 - needs) else savings.

Definition spec_custom_wants (pct : Q) : Q :=
  100 - spec_custom_needs pct - spec_custom_savings pct.

(** A form with no deduction, a salary of 1000 and one necessity. *)
Definition spending (housing : Q) : Form := {|
  salary := FNum 1000;
  epfRate := 0;
  socsoRate := 0;
  socsoCeiling := 6000;
  eisRate := 0;
  eisCeiling := 6000;
  house := FNum housing;
  car := FNum 0;
  food := FNum 0;
  utilities := FNum 0;
  otherNecessities := FNum 0
|}.

(** A form of finite numbers on which the binary64 arithmetic overflows:
    a SOCSO rate of 1e10 percent on a ceiling of -1e308, and 1e308 for
    housing and for transport. *)
Definition f64_overflow : F64.Form := {|
  F64.salary := 1000;
  F64.epfRate := 11;
  F64.socsoRate := 1e10;
  F64.socsoCeiling := -1e308;
  F64.eisRate := 0.2;
  F64.eisCeiling := 6000;
  F64.house := 1e308;
  F64.car := 1e308;
  F64.food := 0;
  F64.utilities := 0;
  F64.otherNecessities := 0
|}.


(** ** Further notions for the tax table *)



(** The options [{applySelfRebate: true, spouseRebate: true}]. *)
Definition both_rebates : option TaxOpts :=
  Some {| applySelfRebate := Some true; spouseRebate := Some true |}.

(** The rebate the options ask for: 400 for the taxpayer unless switched
    off, and 400 for the spouse when asked for. *)
Definition rebate_amount (opts : option TaxOpts) : Q :=
  (if not_false (opt_chain opts applySelfRebate) then 400 else 0)
  + (if is_true (opt_chain opts spouseRebate) then 400 else 0).

(** ** Further notions for [buildAnnualChargeableIncome] *)

(** An options object with the three contributions given, each one supplied
    or not. *)
Definition relief_opts (epf socso eis : option Q) : option ReliefOpts :=
  Some {| epfMonthly := epf; socsoMonthly := socso; eisMonthly := eis |}.

(** A contribution that is absent, zero or negative. *)
Definition nonpositive (x : option Q) : Prop :=
  match x with Some v => v <= 0 | None => True end.

(** ** Further notions for the salary form *)

(** The form after typing [v] into the salary field. *)
Definition set_salary (form : Form) (v : field) : Form := {|
  salary := v;
  epfRate := epfRate form;
  socsoRate := socsoRate form;
  socsoCeiling := socsoCeiling form;
  eisRate := eisRate form;
  eisCeiling := eisCeiling form;
  house := house form;
  car := car form;
  food := food form;
  utilities := utilities form;
  otherNecessities := otherNecessities form
|}.

(** The default form with a salary of 8000 and 5000 of housing. *)
Definition salary_8000_housing_5000 : Form := {|
  salary := FNum 8000;
  epfRate := 11;
  socsoRate := 0.5;
  socsoCeiling := 6000;
  eisRate := 0.2;
  eisCeiling := 6000;
  house := FNum 5000;
  car := FNum 0;
  food := FNum 0;
  utilities := FNum 0;
  otherNecessities := FNum 0
|}.

(** The preset 50 / 30 / 20. *)
Definition preset_50_30_20 : Formula :=
  {| name := "50 / 30 / 20"; needs := 50; wants := 30; savings := 20 |}.

(** * Properties *)

(** ** Comparisons, [Math.max] and [Math.min] *)

Lemma Qle_bool_spec (a b : Q) : BoolSpec (a <= b) (b < a) (Qle_bool a b).
Proof.
  destruct (Qle_bool a b) eqn:E; constructor.
  - now apply Qle_bool_iff.
  - apply Qnot_le_lt. intro H. apply Qle_bool_iff in H. congruence.
Qed.

Lemma Qlt_bool_spec (a b : Q) : BoolSpec (a < b) (b <= a) (Qlt_bool a b).
Proof.
  unfold Qlt_bool. destruct (Qle_bool_spec b a); constructor; assumption.
Qed.

Lemma Qeq_bool_spec (a b : Q) : BoolSpec (a == b) (~ a == b) (Qeq_bool a b).
Proof.
  destruct (Qeq_bool a b) eqn:E; constructor.
  - now apply Qeq_bool_iff.
  - intro H. apply Qeq_bool_iff in H. congruence.
Qed.

Lemma Math_max_spec (a b : Q) :
  (a <= b /\ Math_max a b = b) \/ (b < a /\ Math_max a b = a).
Proof. unfold Math_max. destruct (Qle_bool_spec a b); auto. Qed.

Lemma Math_min_spec (a b : Q) :
  (a <= b /\ Math_min a b = a) \/ (b < a /\ Math_min a b = b).
Proof. unfold Math_min. destruct (Qle_bool_spec a b); auto. Qed.

Lemma Math_max_ge_l (a b : Q) : a <= Math_max a b.
Proof. destruct (Math_max_spec a b) as [[? ->]|[? ->]]; lra. Qed.

Lemma Math_max_mono (a b c : Q) : b <= c -> Math_max a b <= Math_max a c.
Proof.
  intros. destruct (Math_max_spec a b) as [[? ->]|[? ->]];
    destruct (Math_max_spec a c) as [[? ->]|[? ->]]; lra.
Qed.

(** ** The bracket table *)

Lemma BRACKETS_chained : chained BRACKETS.
Proof.
  unfold BRACKETS; cbn [chained].
  repeat match goal with
  | |- _ /\ _ => split
  | |- exists u, upTo ?b = Some u /\ _ =>
      let v := eval cbn [upTo] in (upTo b) in
      match v with Some ?w => exists w end
  | |- upTo _ = _ => reflexivity
  | |- _ < _ => reflexivity
  | |- _ == _ => vm_compute; reflexivity
  end.
Qed.

Lemma BRACKETS_rates : Forall (fun b => 0 <= rate b) BRACKETS.
Proof. unfold BRACKETS. repeat constructor; cbn [rate]; lra. Qed.

(** *** Any chained table with non-negative rates *)

Lemma chained_cons_inv (b : Bracket) (tl : list Bracket) :
  chained (b :: tl) ->
  tl = [] /\ upTo b = None \/
  exists u, upTo b = Some u /\ lowerBound b < u /\
            table_start tl == u /\ table_base tl == bracket_formula b u /\
            chained tl.
Proof.
  destruct tl as [|b2 tl]; cbn [chained].
  - intros H; left; split; [reflexivity | exact H].
  - intros [(u & Hu & Hlt & Hlb & Hbase) Hc]; right.
    exists u; cbn [table_start table_base]; repeat split; assumption.
Qed.

Lemma in_bracket_true (x : Q) (b : Bracket) :
  in_bracket x b = true <->
  lowerBound b < x /\ match upTo b with Some u => x <= u | None => True end.
Proof.
  unfold in_bracket. destruct (upTo b) as [u|].
  - destruct (Qlt_bool_spec (lowerBound b) x), (Qle_bool_spec x u);
      cbn [andb]; split; intros; try discriminate; try tauto;
      exfalso; lra.
  - destruct (Qlt_bool_spec (lowerBound b) x);
      split; intros; try discriminate; try tauto; exfalso; lra.
Qed.

(** Above its start, a chained table always has a bracket for the income. *)
Lemma chained_find (l : list Bracket) :
  chained l -> forall x, table_start l < x ->
  exists b, find (in_bracket x) l = Some b /\ In b l /\ in_bracket x b = true.
Proof.
  induction l as [|b tl IH]; [intros [] | ].
  intros Hc x Hx. cbn [table_start] in Hx. cbn [find].
  destruct (in_bracket x b) eqn:Hin.
  - exists b; repeat split; [now left | assumption].
  - destruct (chained_cons_inv _ _ Hc) as [[-> Hnone] | (u & Hu & Hlt & Hs & _ & Hc')].
    + exfalso. assert (in_bracket x b = true); [ | congruence].
      apply in_bracket_true. rewrite Hnone. auto.
    + assert (Hux : u < x).
      { apply Qnot_le_lt; intro Hle.
        assert (in_bracket x b = true); [ | congruence].
        apply in_bracket_true. rewrite Hu. auto. }
      destruct (IH Hc' x) as (b' & Hf & Hb' & Hin'); [lra | ].
      exists b'; repeat split; [assumption | now right | assumption].
Qed.

(** The bracket found is the only one the income falls in. *)
Lemma chained_unique (l : list Bracket) :
  chained l -> forall x b1 b2 i j,
  nth_error l i = Some b1 -> nth_error l j = Some b2 ->
  in_bracket x b1 = true -> in_bracket x b2 = true -> i = j.
Proof.
  assert (Hlow : forall l, chained l -> forall x b k,
             nth_error l k = Some b -> in_bracket x b = true ->
             table_start l < x).
  { induction l0 as [|b0 tl IH]; [intros [] | ].
    intros Hc x b k Hk Hin. cbn [table_start].
    destruct k as [|k]; cbn [nth_error] in Hk.
    - injection Hk as ->. now apply in_bracket_true in Hin.
    - destruct (chained_cons_inv _ _ Hc) as [[-> _] | (u & _ & Hlt & Hs & _ & Hc')].
      + destruct k; discriminate.
      + specialize (IH Hc' x b k Hk Hin). lra. }
  induction l as [|b tl IH]; [intros [] | ].
  intros Hc x b1 b2 i j Hi Hj H1 H2.
  destruct (chained_cons_inv _ _ Hc) as [[-> _] | (u & Hu & Hlt & Hs & _ & Hc')].
  - destruct i as [|[|i]], j as [|[|j]]; try discriminate; reflexivity.
  - destruct i as [|i], j as [|j]; cbn [nth_error] in Hi, Hj.
    + reflexivity.
    + exfalso. injection Hi as ->.
      apply in_bracket_true in H1. rewrite Hu in H1.
      pose proof (Hlow tl Hc' x b2 j Hj H2). lra.
    + exfalso. injection Hj as ->.
      apply in_bracket_true in H2. rewrite Hu in H2.
      pose proof (Hlow tl Hc' x b1 i Hi H1). lra.
    + f_equal. eapply IH; eassumption.
Qed.

(** The bracket found has the income below its upper bound, so the cap
    [Math.min(ci, upTo)] of the source leaves the income as it is. *)
Lemma table_tax_found (l : list Bracket) (x : Q) (b : Bracket) :
  find (in_bracket x) l = Some b -> table_tax l x = bracket_formula b x.
Proof.
  intros Hf. unfold table_tax, bracket_formula. rewrite Hf.
  apply find_some in Hf as [_ Hin]. unfold in_bracket in Hin.
  destruct (upTo b) as [u|]; [ | reflexivity].
  apply andb_prop in Hin as [_ Hle].
  unfold Math_min. rewrite Hle. reflexivity.
Qed.

Lemma table_tax_cons (b : Bracket) (tl : list Bracket) (x : Q) :
  table_tax (b :: tl) x =
  if in_bracket x b then bracket_formula b x else table_tax tl x.
Proof.
  destruct (in_bracket x b) eqn:Hin.
  - apply table_tax_found. cbn [find]. now rewrite Hin.
  - unfold table_tax. cbn [find]. now rewrite Hin.
Qed.

Lemma formula_mono (b : Bracket) (x y : Q) :
  0 <= rate b -> x <= y -> bracket_formula b x <= bracket_formula b y.
Proof.
  intros Hr Hxy. unfold bracket_formula.
  assert ((x - lowerBound b) * rate b <= (y - lowerBound b) * rate b).
  { apply Qmult_le_compat_r; [lra | assumption]. }
  lra.
Qed.

Lemma formula_at_lower (b : Bracket) : bracket_formula b (lowerBound b) == baseTax b.
Proof. unfold bracket_formula. ring. Qed.

(** Past a bracket's upper bound the income is not in it. *)
Lemma in_bracket_false (x : Q) (b : Bracket) :
  in_bracket x b = false -> lowerBound b < x ->
  exists u, upTo b = Some u /\ u < x.
Proof.
  intros Hin Hlb. destruct (upTo b) as [u|] eqn:Hu.
  - exists u; split; [reflexivity | ].
    apply Qnot_le_lt; intro Hle.
    assert (in_bracket x b = true); [ | congruence].
    apply in_bracket_true. rewrite Hu. auto.
  - assert (in_bracket x b = true); [ | congruence].
    apply in_bracket_true. rewrite Hu. auto.
Qed.

(** The tax is at least the base tax of the first bracket. *)
Lemma table_tax_lower (l : list Bracket) :
  chained l -> Forall (fun b => 0 <= rate b) l ->
  forall x, table_start l < x -> table_base l <= table_tax l x.
Proof.
  induction l as [|b tl IH]; [intros [] | ].
  intros Hc Hr x Hx. cbn [table_start table_base] in *.
  inversion Hr as [|? ? Hrb Hrtl]; subst.
  rewrite table_tax_cons. destruct (in_bracket x b) eqn:Hin.
  - rewrite <- (formula_at_lower b) at 1. apply formula_mono; [assumption | lra].
  - destruct (in_bracket_false _ _ Hin Hx) as (u & Hu & Hux).
    destruct (chained_cons_inv _ _ Hc) as [[_ Hnone] | (u' & Hu' & Hlt & Hs & Hb & Hc')];
      [congruence | ].
    assert (u' = u) by congruence; subst u'.
    assert (table_base tl <= table_tax tl x) by (apply IH; [assumption .. | lra]).
    pose proof (formula_mono b (lowerBound b) u Hrb) as Hm.
    pose proof (formula_at_lower b). lra.
Qed.

(** The tax does not decrease with the income. *)
Lemma table_tax_mono (l : list Bracket) :
  chained l -> Forall (fun b => 0 <= rate b) l ->
  forall x y, table_start l < x -> x <= y -> table_tax l x <= table_tax l y.
Proof.
  induction l as [|b tl IH]; [intros [] | ].
  intros Hc Hr x y Hx Hxy. cbn [table_start] in Hx.
  inversion Hr as [|? ? Hrb Hrtl]; subst.
  rewrite !table_tax_cons.
  destruct (in_bracket x b) eqn:Hinx, (in_bracket y b) eqn:Hiny.
  - now apply formula_mono.
  - destruct (in_bracket_false _ _ Hiny) as (u & Hu & Huy); [lra | ].
    destruct (chained_cons_inv _ _ Hc) as [[_ Hnone] | (u' & Hu' & Hlt & Hs & Hb & Hc')];
      [congruence | ].
    assert (u' = u) by congruence; subst u'.
    apply in_bracket_true in Hinx. rewrite Hu in Hinx.
    assert (table_base tl <= table_tax tl y)
      by (apply table_tax_lower; [assumption .. | lra]).
    pose proof (formula_mono b x u Hrb). lra.
  - destruct (in_bracket_false _ _ Hinx Hx) as (u & Hu & Hux).
    apply in_bracket_true in Hiny. rewrite Hu in Hiny. lra.
  - destruct (in_bracket_false _ _ Hinx Hx) as (u & Hu & Hux).
    destruct (chained_cons_inv _ _ Hc) as [[_ Hnone] | (u' & Hu' & Hlt & Hs & Hb & Hc')];
      [congruence | ].
    assert (u' = u) by congruence; subst u'.
    apply IH; [assumption .. | lra | assumption].
Qed.


(** ** [computeAnnualTax] *)

(** [computeAnnualTax] in terms of [table_tax]. *)
Lemma computeAnnualTax_eq (x : Q) (opts : option TaxOpts) :
  computeAnnualTax x opts =
  let ci := Math_max 0 x in
  let applySelf := not_false (opt_chain opts applySelfRebate) in
  let spouse := is_true (opt_chain opts spouseRebate) in
  if Qle_bool ci 5_000 then 0
  else if is_some (find_bracket ci) then
    if Qle_bool ci 35_000 && (applySelf || spouse) then
      Math_max 0 (table_tax BRACKETS ci
                  - ((if applySelf then 400 else 0) + (if spouse then 400 else 0)))
    else table_tax BRACKETS ci
  else 0.
Proof.
  unfold computeAnnualTax, table_tax, find_bracket.
  destruct (find _ BRACKETS); reflexivity.
Qed.

Lemma find_bracket_some (ci : Q) :
  0 < ci -> exists b, find_bracket ci = Some b /\ In b BRACKETS /\ in_bracket ci b = true.
Proof. intros H. apply (chained_find BRACKETS BRACKETS_chained). exact H. Qed.

Lemma table_tax_nonneg (ci : Q) : 0 < ci -> 0 <= table_tax BRACKETS ci.
Proof.
  intros H.
  exact (table_tax_lower BRACKETS BRACKETS_chained BRACKETS_rates ci H).
Qed.

Lemma computeAnnualTax_nonneg (x : Q) (opts : option TaxOpts) :
  0 <= computeAnnualTax x opts.
Proof.
  rewrite computeAnnualTax_eq. cbv zeta.
  destruct (Qle_bool_spec (Math_max 0 x) 5000); [lra | ].
  destruct (is_some _); [ | lra].
  destruct (_ && _); [apply Math_max_ge_l | ].
  apply table_tax_nonneg. lra.
Qed.


(** C4. For fixed options, [computeAnnualTax] is non-decreasing in the
    chargeable income: a lower income never owes more, across every bracket
    boundary and across the 35000 cutoff of the rebate. *)
Theorem computeAnnualTax_monotone (opts : option TaxOpts) (ci1 ci2 : Q) :
  ci1 <= ci2 -> computeAnnualTax ci1 opts <= computeAnnualTax ci2 opts.
Proof.
  intros Hle.
  pose proof (computeAnnualTax_nonneg ci2 opts) as Hnn.
  pose proof (Math_max_mono 0 ci1 ci2 Hle) as Hci.
  rewrite computeAnnualTax_eq in Hnn. rewrite !computeAnnualTax_eq. cbv zeta in *.
  set (c1 := Math_max 0 ci1) in *. set (c2 := Math_max 0 ci2) in *.
  destruct (Qle_bool_spec c1 5000) as [H1|H1]; [exact Hnn | ].
  destruct (Qle_bool_spec c2 5000) as [H2|H2]; [lra | ].
  destruct (find_bracket_some c1) as (b1 & -> & _); [lra | ].
  destruct (find_bracket_some c2) as (b2 & -> & _); [lra | ].
  cbn [is_some] in *.
  assert (Hmono : table_tax BRACKETS c1 <= table_tax BRACKETS c2).
  { apply (table_tax_mono BRACKETS BRACKETS_chained BRACKETS_rates);
      [cbn [table_start BRACKETS lowerBound]; lra | assumption]. }
  assert (Hpos : 0 <= table_tax BRACKETS c1) by (apply table_tax_nonneg; lra).
  set (r := (if not_false _ then 400 else 0) + (if is_true _ then 400 else 0)).
  assert (Hr : 0 <= r).
  { subst r. destruct (not_false _), (is_true _); lra. }
  destruct (not_false _ || is_true _); rewrite ?andb_false_r, ?andb_true_r;
    [ | exact Hmono].
  destruct (Qle_bool_spec c1 35000) as [H3|H3], (Qle_bool_spec c2 35000) as [H4|H4].
  - apply Math_max_mono. lra.
  - destruct (Math_max_spec 0 (table_tax BRACKETS c1 - r)) as [[? ->]|[? ->]]; lra.
  - lra.
  - exact Hmono.
Qed.

(** The two sides of the rebate cutoff. *)
Lemma computeAnnualTax_monotone_witness :
  34000 <= 36000 /\ computeAnnualTax 34000 None <= computeAnnualTax 36000 None.
Proof.
  split; [lra | apply (computeAnnualTax_monotone None 34000 36000); lra].
Defined.

(** C10. Whenever the clamped income [ci = max(0, chargeableIncome)] is above
    5000, the search of [BRACKETS] finds a bracket, one of the table that the
    income falls in: the fallback [if (!bracket) return 0] is not taken. *)
Theorem bracket_search_succeeds (chargeableIncome : Q) :
  5000 < Math_max 0 chargeableIncome ->
  exists bracket,
    find_bracket (Math_max 0 chargeableIncome) = Some bracket /\
    In bracket BRACKETS /\
    in_bracket (Math_max 0 chargeableIncome) bracket = true.
Proof. intros H. apply find_bracket_some. lra. Qed.

(** An income of 60000. *)
Lemma bracket_search_succeeds_witness :
  5000 < Math_max 0 60000 /\
  exists bracket,
    find_bracket (Math_max 0 60000) = Some bracket /\
    In bracket BRACKETS /\
    in_bracket (Math_max 0 60000) bracket = true.
Proof.
  split; [reflexivity | apply (bracket_search_succeeds 60000); reflexivity].
Defined.

(** C6. At the bracket boundaries, with default options:
    [computeAnnualTax(20000)] is [max(0, 150 - 400) = 0],
    [computeAnnualTax(35000)] is [max(0, (150 + 15000*0.03) - 400) = 200], and
    [computeAnnualTax(100000)] is 9400, whatever the options, since no rebate
    applies above 35000.  The binary64 evaluation gives the same three
    values exactly. *)
Theorem computeAnnualTax_boundaries :
  computeAnnualTax 20000 None == Math_max 0 (150 - 400) /\
  computeAnnualTax 20000 None == 0 /\
  computeAnnualTax 35000 None == Math_max 0 ((150 + 15000 * 0.03) - 400) /\
  computeAnnualTax 35000 None == 200 /\
  (forall opts, computeAnnualTax 100000 opts == 9400) /\
  F64.computeAnnualTax 20000 None = 0%float /\
  F64.computeAnnualTax 35000 None = 200%float /\
  F64.computeAnnualTax 100000 None = 9400%float.
Proof.
  repeat split; try (intros opts); vm_compute; reflexivity.
Qed.

(** C2 as stated fails: with default options the self rebate of 400 applies
    at 5000.01 too, and the tax there is 0, not [(5000.01 - 5000) * 0.01]. *)
Lemma computeAnnualTax_5000_01_default_is_zero :
  computeAnnualTax 5000.01 None == 0 /\
  ~ 0 < computeAnnualTax 5000.01 None /\
  ~ computeAnnualTax 5000.01 None == (5000.01 - 5000) * 0.01 /\
  F64.computeAnnualTax 5000.01 None = 0%float.
Proof.
  repeat split; try (vm_compute; reflexivity); vm_compute; discriminate.
Qed.

(** C2, amended. [computeAnnualTax(5000)] is 0 with default options;
    [computeAnnualTax(5000.01)] is 0 with default options, the rebate
    absorbing the tax, and is [(5000.01 - 5000) * 0.01], above 0, once the
    self rebate is switched off (and no spouse rebate asked for). *)
Theorem computeAnnualTax_just_above_5000 :
  computeAnnualTax 5000 None == 0 /\
  computeAnnualTax 5000.01 None == 0 /\
  computeAnnualTax 5000.01 no_self_rebate == (5000.01 - 5000) * 0.01 /\
  0 < computeAnnualTax 5000.01 no_self_rebate /\
  F64.computeAnnualTax 5000 None = 0%float /\
  F64.computeAnnualTax 5000.01 None = 0%float /\
  F64.computeAnnualTax 5000.01 no_self_rebate = ((5000.01 - 5000) * 0.01)%float /\
  (0 <? F64.computeAnnualTax 5000.01 no_self_rebate)%float = true.
Proof. repeat split; vm_compute; reflexivity. Qed.

(** C7. [BRACKETS] is the specification's table of ten brackets: the bounds,
    the rates 0, 1, 3, 6, 11, 19, 25, 26, 28 and 30 percent and the base
    taxes; it is chained (each bracket starts where the previous one ends,
    with the previous formula's tax at that bound as base tax, and the last
    one is unbounded); and its intervals partition [[0, infinity)]: every
    non-negative income is covered by exactly one bracket. *)
Theorem BRACKETS_table :
  map lowerBound BRACKETS
    = [0; 5000; 20000; 35000; 50000; 70000; 100000; 400000; 600000; 2000000] /\
  map upTo BRACKETS
    = [Some 5000; Some 20000; Some 35000; Some 50000; Some 70000; Some 100000;
       Some 400000; Some 600000; Some 2000000; None] /\
  Forall2 Qeq (map rate BRACKETS)
    (map (fun percent => inject_Z percent / 100)
       [0; 1; 3; 6; 11; 19; 25; 26; 28; 30]%Z) /\
  map baseTax BRACKETS
    = [0; 0; 150; 600; 1500; 3700; 9400; 84400; 136400; 528400] /\
  chained BRACKETS /\
  (forall x, 0 <= x ->
     exists i b,
       nth_error BRACKETS i = Some b /\ covers i b x /\
       forall j b', nth_error BRACKETS j = Some b' -> covers j b' x -> j = i).
Proof.
  split; [reflexivity | ]. split; [reflexivity | ].
  split; [repeat constructor; vm_compute; reflexivity | ].
  split; [reflexivity | ]. split; [exact BRACKETS_chained | ].
  intros x Hx. destruct (Qlt_le_dec 0 x) as [Hpos | Hzero].
  - destruct (chained_find BRACKETS BRACKETS_chained x Hpos) as (b & Hf & HIn & Hin).
    destruct (In_nth_error _ _ HIn) as [i Hi].
    exists i, b. split; [exact Hi | ]. split.
    + apply in_bracket_true in Hin as [Hl Hu]. unfold covers.
      split; [destruct (Nat.eqb i 0); lra | exact Hu].
    + intros j b' Hj [Hl Hu].
      apply (chained_unique BRACKETS BRACKETS_chained x b' b j i Hj Hi); [ | exact Hin].
      apply in_bracket_true. split; [ | exact Hu].
      destruct j as [|j]; [ | exact Hl].
      cbn [nth_error BRACKETS] in Hj. injection Hj as <-.
      cbn [lowerBound]. exact Hpos.
  - exists 0%nat. eexists. split; [reflexivity | ]. split.
    + unfold covers; cbn [Nat.eqb lowerBound upTo]. lra.
    + intros j b' Hj [Hl Hu].
      do 10 (destruct j as [|j]; [
        try reflexivity; exfalso;
        cbn [nth_error BRACKETS] in Hj; injection Hj as <-;
        cbn [Nat.eqb lowerBound] in Hl; lra | ]).
      destruct j; discriminate.
Qed.

(** An income of 6000 is covered. *)
Lemma BRACKETS_table_witness :
  0 <= 6000 /\ exists i b, nth_error BRACKETS i = Some b /\ covers i b 6000.
Proof.
  split; [lra | ].
  destruct BRACKETS_table as (_ & _ & _ & _ & _ & Hpart).
  destruct (Hpart 6000) as (i & b & Hi & Hc & _); [lra | ].
  exists i, b. split; assumption.
Defined.

(** ** [buildAnnualChargeableIncome] *)

Lemma Math_max_Qmax (a b : Q) : Math_max a b == Qmax a b.
Proof.
  destruct (Math_max_spec a b) as [[? ->]|[? ->]];
    destruct (Q.max_spec a b) as [[? ->]|[? ->]]; lra.
Qed.

Lemma Math_min_Qmin (a b : Q) : Math_min a b == Qmin a b.
Proof.
  destruct (Math_min_spec a b) as [[? ->]|[? ->]];
    destruct (Q.min_spec a b) as [[? ->]|[? ->]]; lra.
Qed.

Lemma spec_epf_relief_bounds (epf : option Q) :
  0 <= spec_epf_relief epf <= 7000.
Proof.
  destruct epf as [e|]; cbn [spec_epf_relief]; [ | lra].
  destruct (Q.max_spec 0 e) as [[? He]|[? He]];
    destruct (Q.min_spec (Qmax 0 e * 12) 7000) as [[? ->]|[? ->]]; lra.
Qed.

Lemma spec_socso_eis_relief_bounds (socso eis : option Q) :
  0 <= spec_socso_eis_relief socso eis <= 350.
Proof.
  assert (H : forall a b,
             0 <= Qmin ((Qmax 0 a + Qmax 0 b) * 12) 350 <= 350).
  { intros a b.
    destruct (Q.max_spec 0 a) as [[? Ha]|[? Ha]];
      destruct (Q.max_spec 0 b) as [[? Hb]|[? Hb]];
      destruct (Q.min_spec ((Qmax 0 a + Qmax 0 b) * 12) 350) as [[? ->]|[? ->]];
      lra. }
  destruct socso, eis; cbn [spec_socso_eis_relief]; try apply H; lra.
Qed.

(** C8. [buildAnnualChargeableIncome] returns
    [max(0, annualGross - totalReliefs)], with
    [annualGross = max(0, monthlyGross) * 12] and
    [totalReliefs = max(0, annualReliefs)] plus, for the contributions
    supplied, the annualized EPF capped at 7000 and the annualized SOCSO and
    EIS together capped at 350.  So
    [buildAnnualChargeableIncome(5000, 0, {epfMonthly: 550})] is
    [60000 - 6600 = 53400], in exact and in binary64 arithmetic. *)
Theorem buildAnnualChargeableIncome_spec
    (monthlyGross annualReliefs : Q) (opts : option ReliefOpts) :
  buildAnnualChargeableIncome monthlyGross annualReliefs opts
    == spec_chargeable_income monthlyGross annualReliefs
         (opt_chain opts epfMonthly) (opt_chain opts socsoMonthly)
         (opt_chain opts eisMonthly) /\
  0 <= spec_epf_relief (opt_chain opts epfMonthly) <= 7000 /\
  0 <= spec_socso_eis_relief (opt_chain opts socsoMonthly)
         (opt_chain opts eisMonthly) <= 350 /\
  0 <= buildAnnualChargeableIncome monthlyGross annualReliefs opts /\
  buildAnnualChargeableIncome 5000 0 epf_550 == 60000 - 6600 /\
  buildAnnualChargeableIncome 5000 0 epf_550 == 53400 /\
  F64.buildAnnualChargeableIncome 5000 0 f64_epf_550 = 53400%float.
Proof.
  split; [ | split; [apply spec_epf_relief_bounds | ]].
  - unfold buildAnnualChargeableIncome, spec_chargeable_income.
    set (e := opt_chain opts epfMonthly).
    set (s := opt_chain opts socsoMonthly).
    set (i := opt_chain opts eisMonthly).
    rewrite Math_max_Qmax.
    apply Q.max_compat; [reflexivity | ].
    destruct e as [e0|], s as [s0|], i as [i0|];
      cbn [is_some orb spec_epf_relief spec_socso_eis_relief or_default0];
      rewrite ?Math_min_Qmin, ?Math_max_Qmax; ring.
  - split; [apply spec_socso_eis_relief_bounds | ].
    split; [apply Math_max_ge_l | ].
    repeat split; vm_compute; reflexivity.
Qed.

(** ** The necessities total *)

Lemma or_zero_Number (v : field) : or_zero (Number v) == coerce v.
Proof.
  destruct v as [q| |]; cbn [Number or_zero coerce]; try reflexivity.
  destruct (Qeq_bool_spec q 0) as [H|H]; [symmetry; exact H | reflexivity].
Qed.

Lemma necessities_sum (form : Form) :
  necessities form ==
  coerce (house form) + coerce (car form) + coerce (food form)
  + coerce (utilities form) + coerce (otherNecessities form).
Proof.
  unfold necessities. cbn [map fold_left].
  rewrite !or_zero_Number. ring.
Qed.

(** C1. The necessities total should be the sum of the five fields, each
    coerced to 0 when it is not a number and floored at 0 on its own, as
    [gross] floors the salary.  [necessities] coerces but does not floor:
    with -100 for housing and 0 elsewhere it is -100, where the floored sum
    is 0. *)
Lemma necessities_negative_entry :
  necessities negative_house == -100 /\
  spec_necessitiesTotal negative_house == 0 /\
  ~ necessities negative_house == spec_necessitiesTotal negative_house.
Proof.
  repeat split; try (vm_compute; reflexivity). vm_compute; discriminate.
Qed.

(** What [necessities] computes: the sum of the five fields, each coerced to
    0 when it is not a number and taken as it is otherwise, which is at most
    the sum of the entries floored at 0. *)
Theorem necessities_sum_coerced (form : Form) :
  necessities form ==
    coerce (house form) + coerce (car form) + coerce (food form)
    + coerce (utilities form) + coerce (otherNecessities form) /\
  necessities form <= spec_necessitiesTotal form.
Proof.
  split; [apply necessities_sum | ].
  rewrite necessities_sum. unfold spec_necessitiesTotal.
  pose proof (Q.le_max_r 0 (coerce (house form))).
  pose proof (Q.le_max_r 0 (coerce (car form))).
  pose proof (Q.le_max_r 0 (coerce (food form))).
  pose proof (Q.le_max_r 0 (coerce (utilities form))).
  pose proof (Q.le_max_r 0 (coerce (otherNecessities form))).
  lra.
Qed.

(** ** The formula selection *)

Lemma sorted_presets :
  sort_by (fun a b => needs a - needs b) DEFAULT_FORMULAS =
  [ {| name := "50 / 30 / 20"; needs := 50; wants := 30; savings := 20 |};
    {| name := "60 / 20 / 20"; needs := 60; wants := 20; savings := 20 |};
    {| name := "70 / 20 / 10"; needs := 70; wants := 20; savings := 10 |} ].
Proof. vm_compute. reflexivity. Qed.

(** The preset search, case by case. *)
Lemma preset_search (pct : Q) :
  let fit := find (fun f => Qle_bool pct (needs f))
               (sort_by (fun a b => needs a - needs b) DEFAULT_FORMULAS) in
  (pct <= 50 /\ fit = nth_error DEFAULT_FORMULAS 0) \/
  (50 < pct <= 60 /\ fit = nth_error DEFAULT_FORMULAS 2) \/
  (60 < pct <= 70 /\ fit = nth_error DEFAULT_FORMULAS 1) \/
  (70 < pct /\ fit = None).
Proof.
  cbv zeta. rewrite sorted_presets. cbn [find needs nth_error DEFAULT_FORMULAS].
  destruct (Qle_bool_spec pct 50); [left; auto | right].
  destruct (Qle_bool_spec pct 60); [left; auto | right].
  destruct (Qle_bool_spec pct 70); [left; auto | right; auto].
Qed.

Lemma custom_needs_range (pct : Q) :
  70 < pct -> 70 < Math_min 100 (Math_ceil pct) <= 100.
Proof.
  intros H. pose proof (Qle_ceiling pct). unfold Math_ceil.
  destruct (Math_min_spec 100 (inject_Z (Qceiling pct))) as [[? ->]|[? ->]]; lra.
Qed.

(** The fields of the custom formula, when no preset fits. *)
Lemma chosenFormula_at_custom (pct : Q) :
  70 < pct ->
  let n := Math_min 100 (Math_ceil pct) in
  needs (chosenFormula_at pct) = n /\
  savings (chosenFormula_at pct)
    = (if Qlt_bool (100 - n - 10) 0 then Math_max 0 (100 - n) else 10) /\
  wants (chosenFormula_at pct)
    = (if Qlt_bool (100 - n - 10) 0
       then 100 - n - Math_max 0 (100 - n) else 100 - n - 10).
Proof.
  intros H n. pose proof (custom_needs_range pct H) as Hn. fold n in Hn.
  unfold chosenFormula_at.
  destruct (preset_search pct) as [[? _]|[[? _]|[[? _]|[_ ->]]]]; try lra.
  fold n. cbn [needs wants savings].
  destruct (Qlt_bool_spec 70 n); [ | lra].
  repeat split.
  destruct (Qlt_bool (100 - n - 10) 0); reflexivity.
Qed.

Lemma chosenFormula_at_range (pct : Q) :
  let f := chosenFormula_at pct in
  0 <= needs f <= 100 /\ 0 <= wants f <= 100 /\ 0 <= savings f <= 100 /\
  needs f + wants f + savings f == 100.
Proof.
  cbv zeta.
  destruct (preset_search pct) as [[? Hf]|[[? Hf]|[[? Hf]|[Hgt _]]]];
    try (unfold chosenFormula_at; rewrite Hf;
         cbn [nth_error DEFAULT_FORMULAS needs wants savings];
         repeat split; lra).
  destruct (chosenFormula_at_custom pct Hgt) as (-> & -> & ->).
  pose proof (custom_needs_range pct Hgt) as Hn.
  set (n := Math_min 100 (Math_ceil pct)) in *.
  destruct (Qlt_bool_spec (100 - n - 10) 0);
    [destruct (Math_max_spec 0 (100 - n)) as [[? ->]|[? ->]] | ];
    repeat split; lra.
Qed.

(** C3 as stated fails on overflow: on [f64_overflow] the SOCSO deduction is
    minus infinity, the net salary and the necessities total are infinite,
    the necessity percentage is NaN, no preset fits and the custom formula
    is NaN / NaN / 20. *)
Lemma chosenFormula_nan_on_overflow :
  F64.socso f64_overflow = neg_infinity /\
  F64.net f64_overflow = infinity /\
  F64.necessities f64_overflow = infinity /\
  is_nan (F64.necessityPct f64_overflow) = true /\
  is_nan (F64.needs (F64.chosenFormula f64_overflow)) = true /\
  is_nan (F64.wants (F64.chosenFormula f64_overflow)) = true /\
  F64.savings (F64.chosenFormula f64_overflow) = 20%float /\
  PrimFloat.leb (F64.needs (F64.chosenFormula f64_overflow)) 100%float = false.
Proof. repeat split; vm_compute; reflexivity. Qed.

(** C3, amended. In exact arithmetic, so whenever nothing overflows, for
    every form (any salary, configuration and necessity spend) the formula
    [chosenFormula] returns, preset or custom, has each of its three
    percentages in [[0, 100]], and they sum to exactly 100. *)
Theorem chosenFormula_percentages (form : Form) :
  let f := chosenFormula form in
  0 <= needs f <= 100 /\ 0 <= wants f <= 100 /\ 0 <= savings f <= 100 /\
  needs f + wants f + savings f == 100.
Proof. apply chosenFormula_at_range. Qed.

Lemma spec_custom_needs_eq (pct : Q) :
  Math_min 100 (Math_ceil pct) == spec_custom_needs pct.
Proof. unfold spec_custom_needs, Math_ceil. apply Math_min_Qmin. Qed.

(** C5. When no preset fits (the necessity percentage is above the needs of
    every preset), the custom formula has [needs = min(100, ceil(pct))],
    [savings] 10 when needs is above 70 and 20 otherwise, and
    [wants = 100 - needs - savings]; when that is negative, savings becomes
    [max(0, 100 - needs)] and wants is computed again.  A percentage of 85
    gives 85 / 5 / 10, and 95 gives 95 / 0 / 5, also when they come from a
    form. *)
Theorem custom_formula_spec :
  (forall pct,
     (forall f, In f DEFAULT_FORMULAS -> needs f < pct) ->
     needs (chosenFormula_at pct) == spec_custom_needs pct /\
     savings (chosenFormula_at pct) == spec_custom_savings pct /\
     wants (chosenFormula_at pct) == spec_custom_wants pct) /\
  chosenFormula_at 85
    = {| name := "85 / 5 / 10 (custom)"; needs := 85; wants := 5; savings := 10 |} /\
  chosenFormula_at 95
    = {| name := "95 / 0 / 5 (custom)"; needs := 95; wants := 0; savings := 5 |} /\
  necessityPct (spending 850) == 85 /\
  chosenFormula (spending 850) = chosenFormula_at 85 /\
  necessityPct (spending 950) == 95 /\
  chosenFormula (spending 950) = chosenFormula_at 95.
Proof.
  split; [ | repeat split; vm_compute; reflexivity].
  intros pct Hfit.
  assert (Hgt : 70 < pct).
  { apply (Hfit {| name := "70 / 20 / 10"; needs := 70; wants := 20; savings := 10 |}).
    right; left; reflexivity. }
  destruct (chosenFormula_at_custom pct Hgt) as (Hn & Hs & Hw).
  pose proof (custom_needs_range pct Hgt) as Hr.
  pose proof (spec_custom_needs_eq pct) as He.
  assert (Hsav : savings (chosenFormula_at pct) == spec_custom_savings pct).
  { rewrite Hs. unfold spec_custom_savings. cbv zeta.
    destruct (Qlt_le_dec 70 (spec_custom_needs pct)); [ | lra].
    destruct (Qlt_bool_spec (100 - Math_min 100 (Math_ceil pct) - 10) 0);
      destruct (Qlt_le_dec (100 - spec_custom_needs pct - 10) 0); try lra.
    rewrite Math_max_Qmax. apply Q.max_compat; [reflexivity | lra]. }
  split; [rewrite Hn; exact He | ]. split; [exact Hsav | ].
  unfold spec_custom_wants. rewrite <- Hsav, <- He, Hw, Hs.
  destruct (Qlt_bool_spec (100 - Math_min 100 (Math_ceil pct) - 10) 0); reflexivity.
Qed.

(** No preset fits a necessity percentage of 85. *)
Lemma custom_formula_spec_witness :
  (forall f, In f DEFAULT_FORMULAS -> needs f < 85) /\
  needs (chosenFormula_at 85) == spec_custom_needs 85 /\
  savings (chosenFormula_at 85) == spec_custom_savings 85 /\
  wants (chosenFormula_at 85) == spec_custom_wants 85.
Proof.
  assert (H : forall f, In f DEFAULT_FORMULAS -> needs f < 85).
  { intros f [<-|[<-|[<-|[]]]]; reflexivity. }
  split; [exact H | ].
  destruct custom_formula_spec as [Hspec _]. exact (Hspec 85 H).
Defined.

(** ** The allocation *)



(** * Further properties *)

(** ** The tax table, continued *)

Lemma chained_start_lt (l : list Bracket) :
  chained l -> forall x b k,
  nth_error l k = Some b -> in_bracket x b = true -> table_start l < x.
Proof.
  induction l as [|b0 tl IH]; [intros [] | ].
  intros Hc x b k Hk Hin. cbn [table_start].
  destruct k as [|k]; cbn [nth_error] in Hk.
  - injection Hk as ->. now apply in_bracket_true in Hin.
  - destruct (chained_cons_inv _ _ Hc) as [[-> _] | (u & _ & Hlt & Hs & _ & Hc')].
    + destruct k; discriminate.
    + specialize (IH Hc' x b k Hk Hin). lra.
Qed.

(** The tax of an income is the formula of the bracket it falls in. *)
Lemma table_tax_at (l : list Bracket) (i : nat) (b : Bracket) (x : Q) :
  chained l -> nth_error l i = Some b -> in_bracket x b = true ->
  table_tax l x = bracket_formula b x.
Proof.
  intros Hc Hi Hin.
  pose proof (chained_start_lt l Hc x b i Hi Hin) as Hx.
  destruct (chained_find l Hc x Hx) as (b' & Hf & HIn & Hin').
  destruct (In_nth_error _ _ HIn) as [j Hj].
  assert (i = j) by (eapply chained_unique; eassumption). subst j.
  assert (b' = b) by congruence. subst b'.
  now apply table_tax_found.
Qed.







(** ** [computeAnnualTax], continued *)

Lemma computeAnnualTax_low (x : Q) (opts : option TaxOpts) :
  Math_max 0 x <= 5000 -> computeAnnualTax x opts = 0.
Proof.
  intros H. rewrite computeAnnualTax_eq. cbv zeta.
  destruct (Qle_bool_spec (Math_max 0 x) 5000); [reflexivity | lra].
Qed.

Lemma rebate_amount_cases (opts : option TaxOpts) :
  (not_false (opt_chain opts applySelfRebate)
   || is_true (opt_chain opts spouseRebate) = false /\ rebate_amount opts = 0 + 0) \/
  (not_false (opt_chain opts applySelfRebate)
   || is_true (opt_chain opts spouseRebate) = true /\
   400 <= rebate_amount opts <= 800).
Proof.
  unfold rebate_amount.
  destruct (not_false _), (is_true _); cbn [orb];
    [right | right | right | left]; split; try reflexivity; lra.
Qed.

(** Between 5000 and 35000 the rebate is taken off the table's tax, and the
    result floored at 0. *)
Lemma computeAnnualTax_mid (x : Q) (opts : option TaxOpts) :
  5000 < Math_max 0 x -> Math_max 0 x <= 35000 ->
  computeAnnualTax x opts
    == Math_max 0 (table_tax BRACKETS (Math_max 0 x) - rebate_amount opts).
Proof.
  intros H1 H2. rewrite computeAnnualTax_eq. cbv zeta.
  destruct (Qle_bool_spec (Math_max 0 x) 5000); [lra | ].
  destruct (find_bracket_some (Math_max 0 x)) as (b & -> & _); [lra | ].
  cbn [is_some].
  destruct (Qle_bool_spec (Math_max 0 x) 35000); [ | lra]. cbn [andb].
  pose proof (table_tax_nonneg (Math_max 0 x)) as Hnn.
  destruct (rebate_amount_cases opts) as [[-> Hr]|[-> Hr]].
  - rewrite Hr.
    destruct (Math_max_spec 0 (table_tax BRACKETS (Math_max 0 x) - (0 + 0)))
      as [[? ->]|[? ->]]; lra.
  - reflexivity.
Qed.

(** Above 35000 the tax is the table's, whatever the options. *)
Lemma computeAnnualTax_high (x : Q) (opts : option TaxOpts) :
  35000 < Math_max 0 x ->
  computeAnnualTax x opts = table_tax BRACKETS (Math_max 0 x).
Proof.
  intros H. rewrite computeAnnualTax_eq. cbv zeta.
  destruct (Qle_bool_spec (Math_max 0 x) 5000); [lra | ].
  destruct (find_bracket_some (Math_max 0 x)) as (b & -> & _); [lra | ].
  cbn [is_some].
  destruct (Qle_bool_spec (Math_max 0 x) 35000); [lra | reflexivity].
Qed.

Lemma Math_max_0_pos (x : Q) : 0 < x -> Math_max 0 x = x.
Proof. intros H. destruct (Math_max_spec 0 x) as [[_ ->]|[? _]]; [reflexivity | lra]. Qed.

Lemma Math_max_0_le (x : Q) : Math_max 0 x <= 5000 <-> x <= 5000.
Proof. destruct (Math_max_spec 0 x) as [[? ->]|[? ->]]; split; lra. Qed.

Lemma table_tax_BRACKETS_mono (x y : Q) :
  0 < x -> x <= y -> table_tax BRACKETS x <= table_tax BRACKETS y.
Proof.
  intros. apply (table_tax_mono BRACKETS BRACKETS_chained BRACKETS_rates);
    [cbn [table_start BRACKETS lowerBound] | ]; assumption.
Qed.


(** X1. The tax is never negative, whatever the income (negative incomes
    included) and the options: the rebate cannot push it below 0. *)
Theorem computeAnnualTax_never_negative (x : Q) (opts : option TaxOpts) :
  0 <= computeAnnualTax x opts.
Proof.
  destruct (Qlt_le_dec 5000 (Math_max 0 x)) as [H|H].
  - destruct (Qlt_le_dec 35000 (Math_max 0 x)) as [H'|H'].
    + rewrite computeAnnualTax_high by assumption. apply table_tax_nonneg. lra.
    + rewrite computeAnnualTax_mid by assumption. apply Math_max_ge_l.
  - rewrite computeAnnualTax_low by assumption. lra.
Qed.

(** X2. Where the tax is zero: without any rebate, exactly for incomes up to
    5000; with default options (self rebate of 400), exactly up to
    28333 1/3; with the self and spouse rebates, exactly up to 35000. *)
Theorem zero_tax_thresholds (ci : Q) :
  (computeAnnualTax ci no_self_rebate == 0 <-> ci <= 5000) /\
  (computeAnnualTax ci None == 0 <-> ci <= 85000 # 3) /\
  (computeAnnualTax ci both_rebates == 0 <-> ci <= 35000).
Proof.
  assert (HB : forall c, 5000 < c -> c <= 20000 ->
                 table_tax BRACKETS c = (0 + (c - 5000) * 0.01)).
  { intros c H1 H2.
    apply (table_tax_at BRACKETS 1 _ c BRACKETS_chained eq_refl).
    apply in_bracket_true. cbn [lowerBound upTo]. split; assumption. }
  assert (HC : forall c, 20000 < c -> c <= 35000 ->
                 table_tax BRACKETS c = (150 + (c - 20000) * 0.03)).
  { intros c H1 H2.
    apply (table_tax_at BRACKETS 2 _ c BRACKETS_chained eq_refl).
    apply in_bracket_true. cbn [lowerBound upTo]. split; assumption. }
  assert (H35 : table_tax BRACKETS 35000 == 600) by (vm_compute; reflexivity).
  assert (Hhigh : forall opts, 35000 < ci -> 600 <= computeAnnualTax ci opts).
  { intros opts H. rewrite computeAnnualTax_high by (rewrite (Math_max_0_pos ci); lra).
    rewrite (Math_max_0_pos ci) by lra.
    pose proof (table_tax_BRACKETS_mono 35000 ci). lra. }
  assert (Hlow : forall opts, ci <= 5000 -> computeAnnualTax ci opts == 0).
  { intros opts H. rewrite computeAnnualTax_low; [reflexivity | ].
    now apply Math_max_0_le. }
  assert (Hmid : forall opts, 5000 < ci -> ci <= 35000 ->
            computeAnnualTax ci opts == Math_max 0 (table_tax BRACKETS ci - rebate_amount opts)).
  { intros opts H1 H2.
    rewrite computeAnnualTax_mid by (rewrite (Math_max_0_pos ci); lra).
    rewrite (Math_max_0_pos ci) by lra. reflexivity. }
  assert (Hpos : 5000 < ci -> 0 < table_tax BRACKETS ci).
  { intros H. destruct (Qlt_le_dec 20000 ci).
    - pose proof (table_tax_BRACKETS_mono 20000 ci).
      assert (table_tax BRACKETS 20000 == 150) by (vm_compute; reflexivity). lra.
    - rewrite HB by lra. lra. }
  repeat split.
  - intros H0. apply Qnot_lt_le; intros Hgt.
    destruct (Qlt_le_dec 35000 ci) as [H|H].
    + specialize (Hhigh no_self_rebate H). lra.
    + pose proof (Hmid no_self_rebate Hgt H) as Hm.
      specialize (Hpos Hgt).
      change (rebate_amount no_self_rebate) with (0 + 0) in Hm.
      destruct (Math_max_spec 0 (table_tax BRACKETS ci - (0 + 0))) as [[? E]|[? E]];
        rewrite E in Hm; lra.
  - apply Hlow.
  - intros H0. apply Qnot_lt_le; intros Hgt.
    destruct (Qlt_le_dec 35000 ci) as [H|H].
    + specialize (Hhigh None H). lra.
    + assert (Hm : computeAnnualTax ci None
                     == Math_max 0 (table_tax BRACKETS ci - rebate_amount None))
        by (apply Hmid; lra).
      change (rebate_amount None) with (400 + 0) in Hm.
      rewrite HC in Hm by lra.
      destruct (Math_max_spec 0 (150 + (ci - 20000) * 0.03 - (400 + 0))) as [[? E]|[? E]];
        rewrite E in Hm; lra.
  - intros Hle. destruct (Qlt_le_dec 5000 ci) as [H|H]; [ | now apply Hlow].
    rewrite (Hmid None) by lra.
    change (rebate_amount None) with (400 + 0).
    assert (table_tax BRACKETS ci <= 400).
    { destruct (Qlt_le_dec 20000 ci).
      - rewrite HC by lra. lra.
      - rewrite HB by lra. lra. }
    destruct (Math_max_spec 0 (table_tax BRACKETS ci - (400 + 0))) as [[? ->]|[? ->]]; lra.
  - intros H0. apply Qnot_lt_le; intros Hgt.
    specialize (Hhigh both_rebates Hgt). lra.
  - intros Hle. destruct (Qlt_le_dec 5000 ci) as [H|H]; [ | now apply Hlow].
    rewrite (Hmid both_rebates) by lra.
    change (rebate_amount both_rebates) with (400 + 400).
    pose proof (table_tax_BRACKETS_mono ci 35000).
    destruct (Math_max_spec 0 (table_tax BRACKETS ci - (400 + 400))) as [[? ->]|[? ->]]; lra.
Qed.

(** X3. Above 35000 the options make no difference: no rebate is applied. *)
Theorem options_ignored_above_35000 (ci : Q) (opts1 opts2 : option TaxOpts) :
  35000 < ci -> computeAnnualTax ci opts1 = computeAnnualTax ci opts2.
Proof.
  intros H. rewrite !computeAnnualTax_high by (rewrite (Math_max_0_pos ci); lra).
  reflexivity.
Qed.

(** An income of 40000, default options against both rebates. *)
Lemma options_ignored_above_35000_witness :
  35000 < 40000 /\ computeAnnualTax 40000 None = computeAnnualTax 40000 both_rebates.
Proof.
  split; [reflexivity | apply (options_ignored_above_35000 40000); reflexivity].
Defined.

(** X4. A rebate never raises the tax and lowers it by at most its amount:
    for every income and options the tax is at most the tax without rebate,
    and at least that tax less 800; with default options less 400; and
    asking for both rebates never costs more than the default. *)
Theorem rebate_effect (ci : Q) (opts : option TaxOpts) :
  computeAnnualTax ci no_self_rebate - 800 <= computeAnnualTax ci opts /\
  computeAnnualTax ci opts <= computeAnnualTax ci no_self_rebate /\
  computeAnnualTax ci no_self_rebate - 400 <= computeAnnualTax ci None /\
  computeAnnualTax ci both_rebates <= computeAnnualTax ci None.
Proof.
  destruct (Qlt_le_dec 5000 (Math_max 0 ci)) as [H|H].
  - destruct (Qlt_le_dec 35000 (Math_max 0 ci)) as [H'|H'].
    + rewrite !computeAnnualTax_high by assumption. repeat split; lra.
    + rewrite !computeAnnualTax_mid by assumption.
      pose proof (table_tax_nonneg (Math_max 0 ci)) as Hnn.
      set (t := table_tax BRACKETS (Math_max 0 ci)) in *.
      change (rebate_amount no_self_rebate) with (0 + 0).
      change (rebate_amount None) with (400 + 0).
      change (rebate_amount both_rebates) with (400 + 400).
      assert (Hr : 0 <= rebate_amount opts <= 800).
      { destruct (rebate_amount_cases opts) as [[_ ->]|[_ ?]]; lra. }
      destruct (Math_max_spec 0 (t - (0 + 0))) as [[? ->]|[? ->]];
        destruct (Math_max_spec 0 (t - rebate_amount opts)) as [[? ->]|[? ->]];
        destruct (Math_max_spec 0 (t - (400 + 0))) as [[? ->]|[? ->]];
        destruct (Math_max_spec 0 (t - (400 + 400))) as [[? ->]|[? ->]];
        repeat split; lra.
  - rewrite !computeAnnualTax_low by assumption. repeat split; lra.
Qed.



(** X8. With default options the rebate stops abruptly at 35000: an income
    between 35000 and 35425 leaves less after tax than an income of exactly
    35000 does. *)
Theorem rebate_cutoff_lowers_income_after_tax (ci : Q) :
  35000 < ci -> ci <= 35425 ->
  ci - computeAnnualTax ci None < 35000 - computeAnnualTax 35000 None.
Proof.
  intros H1 H2.
  assert (H35 : computeAnnualTax 35000 None == 200) by (vm_compute; reflexivity).
  rewrite computeAnnualTax_high by (rewrite (Math_max_0_pos ci); lra).
  rewrite (Math_max_0_pos ci) by lra.
  rewrite (table_tax_at BRACKETS 3 _ ci BRACKETS_chained eq_refl).
  - unfold bracket_formula; cbn [baseTax lowerBound rate]. lra.
  - apply in_bracket_true. cbn [lowerBound upTo]. split; lra.
Qed.

(** An income of 35200. *)
Lemma rebate_cutoff_lowers_income_after_tax_witness :
  35000 < 35200 /\ 35200 <= 35425 /\
  35200 - computeAnnualTax 35200 None < 35000 - computeAnnualTax 35000 None.
Proof.
  split; [reflexivity | split; [lra | ] ].
  apply (rebate_cutoff_lowers_income_after_tax 35200); [reflexivity | lra].
Defined.

(** The tax is non-decreasing in the income (for any options). *)
Lemma computeAnnualTax_le (opts : option TaxOpts) (ci1 ci2 : Q) :
  ci1 <= ci2 -> computeAnnualTax ci1 opts <= computeAnnualTax ci2 opts.
Proof.
  intros Hle.
  pose proof (Math_max_mono 0 ci1 ci2 Hle) as Hc.
  destruct (Qlt_le_dec 5000 (Math_max 0 ci1)) as [H1|H1].
  - assert (H2 : 5000 < Math_max 0 ci2) by lra.
    pose proof (table_tax_BRACKETS_mono (Math_max 0 ci1) (Math_max 0 ci2)) as Hm.
    pose proof (table_tax_nonneg (Math_max 0 ci1)) as Hnn.
    assert (Hr : 0 <= rebate_amount opts).
    { destruct (rebate_amount_cases opts) as [[_ ->]|[_ ?]]; lra. }
    destruct (Qlt_le_dec 35000 (Math_max 0 ci1)) as [H3|H3].
    + rewrite !computeAnnualTax_high by lra. apply Hm; lra.
    + rewrite (computeAnnualTax_mid ci1) by assumption.
      destruct (Qlt_le_dec 35000 (Math_max 0 ci2)) as [H4|H4].
      * rewrite (computeAnnualTax_high ci2) by assumption.
        destruct (Math_max_spec 0 (table_tax BRACKETS (Math_max 0 ci1) - rebate_amount opts))
          as [[? ->]|[? ->]]; lra.
      * rewrite (computeAnnualTax_mid ci2) by assumption.
        apply Math_max_mono. lra.
  - rewrite (computeAnnualTax_low ci1) by assumption. apply computeAnnualTax_nonneg.
Qed.

(** ** [buildAnnualChargeableIncome], continued *)

Lemma buildAnnualChargeableIncome_eq
    (monthlyGross annualReliefs : Q) (opts : option ReliefOpts) :
  buildAnnualChargeableIncome monthlyGross annualReliefs opts
    == spec_chargeable_income monthlyGross annualReliefs
         (opt_chain opts epfMonthly) (opt_chain opts socsoMonthly)
         (opt_chain opts eisMonthly).
Proof.
  unfold buildAnnualChargeableIncome, spec_chargeable_income.
  set (e := opt_chain opts epfMonthly).
  set (s := opt_chain opts socsoMonthly).
  set (i := opt_chain opts eisMonthly).
  rewrite Math_max_Qmax.
  apply Q.max_compat; [reflexivity | ].
  destruct e as [e0|], s as [s0|], i as [i0|];
    cbn [is_some orb spec_epf_relief spec_socso_eis_relief or_default0];
    rewrite ?Math_min_Qmin, ?Math_max_Qmax; ring.
Qed.

(** Case analysis on every [Qmax] and [Qmin], each one then a plain number
    with the facts that define it. *)
Ltac minmax_cases :=
  repeat match goal with
  | |- context [Qmax ?a ?b] =>
      let m := fresh "m" in
      destruct (Q.max_spec a b) as [[? ?]|[? ?]];
      set (m := Qmax a b) in *; clearbody m
  | H : context [Qmax ?a ?b] |- _ =>
      let m := fresh "m" in
      destruct (Q.max_spec a b) as [[? ?]|[? ?]];
      set (m := Qmax a b) in *; clearbody m
  | |- context [Qmin ?a ?b] =>
      let m := fresh "m" in
      destruct (Q.min_spec a b) as [[? ?]|[? ?]];
      set (m := Qmin a b) in *; clearbody m
  | H : context [Qmin ?a ?b] |- _ =>
      let m := fresh "m" in
      destruct (Q.min_spec a b) as [[? ?]|[? ?]];
      set (m := Qmin a b) in *; clearbody m
  end.

(** X10. The chargeable income is never above the annual gross
    [max(0, monthlyGross) * 12], and supplying contributions never raises
    it: it is at most the result of the same call without options. *)
Theorem chargeable_income_bounds
    (monthlyGross annualReliefs : Q) (opts : option ReliefOpts) :
  buildAnnualChargeableIncome monthlyGross annualReliefs opts
    <= Qmax 0 monthlyGross * 12 /\
  buildAnnualChargeableIncome monthlyGross annualReliefs opts
    <= buildAnnualChargeableIncome monthlyGross annualReliefs None.
Proof.
  rewrite !buildAnnualChargeableIncome_eq. unfold spec_chargeable_income. cbv zeta.
  pose proof (spec_epf_relief_bounds (opt_chain opts epfMonthly)).
  pose proof (spec_socso_eis_relief_bounds (opt_chain opts socsoMonthly)
                (opt_chain opts eisMonthly)).
  set (E := spec_epf_relief (opt_chain opts epfMonthly)) in *.
  set (S := spec_socso_eis_relief (opt_chain opts socsoMonthly)
              (opt_chain opts eisMonthly)) in *.
  clearbody E S.
  cbn [opt_chain spec_epf_relief spec_socso_eis_relief].
  minmax_cases; split; lra.
Qed.

(** X11. With the contributions fixed, a higher monthly gross and lower
    annual reliefs never give a lower chargeable income. *)
Theorem chargeable_income_monotone
    (gross1 gross2 reliefs1 reliefs2 : Q) (opts : option ReliefOpts) :
  gross1 <= gross2 -> reliefs1 <= reliefs2 ->
  buildAnnualChargeableIncome gross1 reliefs2 opts
    <= buildAnnualChargeableIncome gross2 reliefs1 opts.
Proof.
  intros Hg Hr.
  rewrite !buildAnnualChargeableIncome_eq. unfold spec_chargeable_income. cbv zeta.
  set (E := spec_epf_relief _) in *. set (S := spec_socso_eis_relief _ _) in *.
  clearbody E S.
  minmax_cases; lra.
Qed.

(** 4000 a month against 5000, reliefs of 9000 against 3000. *)
Lemma chargeable_income_monotone_witness :
  4000 <= 5000 /\ 3000 <= 9000 /\
  buildAnnualChargeableIncome 4000 9000 epf_550
    <= buildAnnualChargeableIncome 5000 3000 epf_550.
Proof.
  split; [lra | split; [lra | ] ].
  apply (chargeable_income_monotone 4000 5000 3000 9000 epf_550); lra.
Defined.

(** X12. Contributions that are zero or negative count for nothing: when
    every contribution supplied is at most 0, the result is that of a call
    without options. *)
Theorem nonpositive_contributions_ignored
    (monthlyGross annualReliefs : Q) (epf socso eis : option Q) :
  nonpositive epf -> nonpositive socso -> nonpositive eis ->
  buildAnnualChargeableIncome monthlyGross annualReliefs (relief_opts epf socso eis)
    == buildAnnualChargeableIncome monthlyGross annualReliefs None.
Proof.
  intros He Hs Hi.
  rewrite !buildAnnualChargeableIncome_eq. unfold spec_chargeable_income.
  cbn [relief_opts opt_chain epfMonthly socsoMonthly eisMonthly
       spec_epf_relief spec_socso_eis_relief].
  apply Q.max_compat; [reflexivity | ].
  assert (HE : spec_epf_relief epf == 0).
  { destruct epf as [e|]; cbn [spec_epf_relief nonpositive] in *; [ | reflexivity].
    minmax_cases; lra. }
  assert (HS : spec_socso_eis_relief socso eis == 0).
  { destruct socso as [s0|], eis as [i0|];
      cbn [spec_socso_eis_relief nonpositive or_default0] in *;
      try reflexivity; minmax_cases; lra. }
  rewrite HE, HS. ring.
Qed.

(** An EPF contribution of 0 and an EIS contribution of -5. *)
Lemma nonpositive_contributions_ignored_witness :
  nonpositive (Some 0) /\ nonpositive None /\ nonpositive (Some (-5)) /\
  buildAnnualChargeableIncome 5000 1000 (relief_opts (Some 0) None (Some (-5)))
    == buildAnnualChargeableIncome 5000 1000 None.
Proof.
  assert (H1 : nonpositive (Some 0)) by (cbn; lra).
  assert (H2 : nonpositive None) by exact I.
  assert (H3 : nonpositive (Some (-5))) by (cbn; lra).
  split; [exact H1 | split; [exact H2 | split; [exact H3 | ] ] ].
  exact (nonpositive_contributions_ignored 5000 1000 (Some 0) None (Some (-5)) H1 H2 H3).
Defined.

(** X13. The EPF relief saturates: any two monthly EPF contributions of at
    least 7000 a year (583.34 a month) give the same chargeable income. *)
Theorem epf_relief_saturates
    (monthlyGross annualReliefs epf1 epf2 : Q) (socso eis : option Q) :
  7000 <= epf1 * 12 -> 7000 <= epf2 * 12 ->
  buildAnnualChargeableIncome monthlyGross annualReliefs
      (relief_opts (Some epf1) socso eis)
    == buildAnnualChargeableIncome monthlyGross annualReliefs
         (relief_opts (Some epf2) socso eis).
Proof.
  intros H1 H2.
  rewrite !buildAnnualChargeableIncome_eq. unfold spec_chargeable_income.
  cbn [relief_opts opt_chain epfMonthly socsoMonthly eisMonthly spec_epf_relief].
  apply Q.max_compat; [reflexivity | ].
  assert (HE : forall e, 7000 <= e * 12 -> Qmin (Qmax 0 e * 12) 7000 == 7000).
  { intros e He. minmax_cases; lra. }
  rewrite (HE epf1 H1), (HE epf2 H2). reflexivity.
Qed.

(** Contributions of 600 and of 1100 a month. *)
Lemma epf_relief_saturates_witness :
  7000 <= 600 * 12 /\ 7000 <= 1100 * 12 /\
  buildAnnualChargeableIncome 10000 0 (relief_opts (Some 600) None None)
    == buildAnnualChargeableIncome 10000 0 (relief_opts (Some 1100) None None).
Proof.
  split; [lra | split; [lra | ] ].
  apply (epf_relief_saturates 10000 0 600 1100 None None); lra.
Defined.

(** X14. SOCSO and EIS are interchangeable: the result depends on the two
    only through their sum (each floored at 0), so swapping them changes
    nothing, and a contribution given as SOCSO alone counts as the same
    amount given as EIS alone. *)
Theorem socso_eis_interchangeable
    (monthlyGross annualReliefs : Q) (epf socso eis : option Q) (amount : Q) :
  buildAnnualChargeableIncome monthlyGross annualReliefs (relief_opts epf socso eis)
    == buildAnnualChargeableIncome monthlyGross annualReliefs (relief_opts epf eis socso) /\
  buildAnnualChargeableIncome monthlyGross annualReliefs (relief_opts epf (Some amount) None)
    == buildAnnualChargeableIncome monthlyGross annualReliefs (relief_opts epf None (Some amount)).
Proof.
  rewrite !buildAnnualChargeableIncome_eq. unfold spec_chargeable_income.
  cbn [relief_opts opt_chain epfMonthly socsoMonthly eisMonthly].
  split; apply Q.max_compat; try reflexivity.
  - destruct socso as [s0|], eis as [i0|]; cbn [spec_socso_eis_relief or_default0];
      try reflexivity;
      rewrite (Qplus_comm (Qmax 0 _) (Qmax 0 _)); reflexivity.
  - cbn [spec_socso_eis_relief or_default0].
    rewrite (Qplus_comm (Qmax 0 amount) (Qmax 0 0)). reflexivity.
Qed.

(** X15. Tax from salary: with the contributions and the tax options fixed,
    a higher monthly gross and lower annual reliefs never give a lower
    annual tax. *)
Theorem tax_from_salary_monotone
    (gross1 gross2 reliefs1 reliefs2 : Q)
    (opts : option ReliefOpts) (taxOpts : option TaxOpts) :
  gross1 <= gross2 -> reliefs1 <= reliefs2 ->
  computeAnnualTax (buildAnnualChargeableIncome gross1 reliefs2 opts) taxOpts
    <= computeAnnualTax (buildAnnualChargeableIncome gross2 reliefs1 opts) taxOpts.
Proof.
  intros Hg Hr. apply computeAnnualTax_le.
  rewrite !buildAnnualChargeableIncome_eq. unfold spec_chargeable_income. cbv zeta.
  set (E := spec_epf_relief _) in *. set (S := spec_socso_eis_relief _ _) in *.
  clearbody E S.
  minmax_cases; lra.
Qed.

(** 4000 a month against 5000, reliefs of 9000 against 3000. *)
Lemma tax_from_salary_monotone_witness :
  4000 <= 5000 /\ 3000 <= 9000 /\
  computeAnnualTax (buildAnnualChargeableIncome 4000 9000 epf_550) None
    <= computeAnnualTax (buildAnnualChargeableIncome 5000 3000 epf_550) None.
Proof.
  split; [lra | split; [lra | ] ].
  apply (tax_from_salary_monotone 4000 5000 3000 9000 epf_550 None); lra.
Defined.

(** X16. A monthly gross of at most 5000 / 12 owes no tax, whatever the
    reliefs, the contributions and the tax options. *)
Theorem no_tax_on_low_salary
    (monthlyGross annualReliefs : Q)
    (opts : option ReliefOpts) (taxOpts : option TaxOpts) :
  monthlyGross * 12 <= 5000 ->
  computeAnnualTax (buildAnnualChargeableIncome monthlyGross annualReliefs opts) taxOpts
    = 0.
Proof.
  intros H. apply computeAnnualTax_low.
  assert (Hb : buildAnnualChargeableIncome monthlyGross annualReliefs opts <= 5000).
  { rewrite buildAnnualChargeableIncome_eq. unfold spec_chargeable_income. cbv zeta.
    pose proof (spec_epf_relief_bounds (opt_chain opts epfMonthly)).
    pose proof (spec_socso_eis_relief_bounds (opt_chain opts socsoMonthly)
                  (opt_chain opts eisMonthly)).
    set (E := spec_epf_relief _) in *. set (S := spec_socso_eis_relief _ _) in *.
    clearbody E S.
    minmax_cases; lra. }
  apply Math_max_0_le. exact Hb.
Qed.

(** A monthly gross of 400. *)
Lemma no_tax_on_low_salary_witness :
  400 * 12 <= 5000 /\
  computeAnnualTax (buildAnnualChargeableIncome 400 0 None) None = 0.
Proof.
  split; [lra | apply (no_tax_on_low_salary 400 0 None None); lra].
Defined.

(** ** The deductions and the net salary *)

Lemma gross_nonneg (form : Form) : 0 <= gross form.
Proof. apply Math_max_ge_l. Qed.

Lemma percent_eq (r : Q) : r / 100 == r * (1 # 100).
Proof. field. Qed.

Lemma percent_nonneg (r : Q) : 0 <= r -> 0 <= r / 100.
Proof. intros H. rewrite percent_eq. lra. Qed.

Lemma Math_min_bounds (a b : Q) :
  Math_min a b <= a /\ Math_min a b <= b /\ (Math_min a b == a \/ Math_min a b == b).
Proof.
  destruct (Math_min_spec a b) as [[? ->]|[? ->]].
  - split; [lra | split; [lra | left; reflexivity] ].
  - split; [lra | split; [lra | right; reflexivity] ].
Qed.

(** X18. With non-negative rates and ceilings the net salary lies between 0
    and the gross salary. *)
Theorem net_between_zero_and_gross (form : Form) :
  0 <= epfRate form -> 0 <= socsoRate form -> 0 <= eisRate form ->
  0 <= socsoCeiling form -> 0 <= eisCeiling form ->
  0 <= net form <= gross form.
Proof.
  intros He Hs Hi Hcs Hci.
  pose proof (gross_nonneg form) as Hg.
  unfold net, totalDeductions, epf, socso, eis.
  set (g := gross form) in *.
  destruct (Math_min_bounds g (socsoCeiling form)) as (_ & _ & Hm1).
  destruct (Math_min_bounds g (eisCeiling form)) as (_ & _ & Hm2).
  pose proof (percent_nonneg _ He) as He'. pose proof (percent_nonneg _ Hs) as Hs'.
  pose proof (percent_nonneg _ Hi) as Hi'.
  assert (H1 : 0 <= g * (epfRate form / 100))
    by (apply Qmult_le_0_compat; assumption).
  assert (H2 : 0 <= Math_min g (socsoCeiling form) * (socsoRate form / 100))
    by (apply Qmult_le_0_compat; [destruct Hm1 as [-> | ->]; lra | assumption]).
  assert (H3 : 0 <= Math_min g (eisCeiling form) * (eisRate form / 100))
    by (apply Qmult_le_0_compat; [destruct Hm2 as [-> | ->]; lra | assumption]).
  set (d1 := g * (epfRate form / 100)) in *.
  set (d2 := Math_min g (socsoCeiling form) * (socsoRate form / 100)) in *.
  set (d3 := Math_min g (eisCeiling form) * (eisRate form / 100)) in *.
  match goal with |- 0 <= Math_max 0 ?d <= _ =>
    destruct (Math_max_spec 0 d) as [[? ->]|[? ->]] end; split; lra.
Qed.

(** The default form with a salary of 8000: a net salary of 7078. *)
Lemma net_between_zero_and_gross_witness :
  0 <= epfRate (set_salary getDefaultForm (FNum 8000)) /\
  0 <= socsoRate (set_salary getDefaultForm (FNum 8000)) /\
  0 <= eisRate (set_salary getDefaultForm (FNum 8000)) /\
  0 <= socsoCeiling (set_salary getDefaultForm (FNum 8000)) /\
  0 <= eisCeiling (set_salary getDefaultForm (FNum 8000)) /\
  net (set_salary getDefaultForm (FNum 8000)) == 7078 /\
  0 <= net (set_salary getDefaultForm (FNum 8000))
    <= gross (set_salary getDefaultForm (FNum 8000)).
Proof.
  assert (H1 : 0 <= epfRate (set_salary getDefaultForm (FNum 8000))) by (cbn; lra).
  assert (H2 : 0 <= socsoRate (set_salary getDefaultForm (FNum 8000))) by (cbn; lra).
  assert (H3 : 0 <= eisRate (set_salary getDefaultForm (FNum 8000))) by (cbn; lra).
  assert (H4 : 0 <= socsoCeiling (set_salary getDefaultForm (FNum 8000))) by (cbn; lra).
  assert (H5 : 0 <= eisCeiling (set_salary getDefaultForm (FNum 8000))) by (cbn; lra).
  split; [exact H1 | split; [exact H2 | split; [exact H3 |
    split; [exact H4 | split; [exact H5 | split; [vm_compute; reflexivity | ] ] ] ] ] ].
  exact (net_between_zero_and_gross (set_salary getDefaultForm (FNum 8000))
           H1 H2 H3 H4 H5).
Defined.

(** X19. The wage ceilings cap SOCSO and EIS: with a non-negative rate each
    is at most the rate applied to the gross salary and at most the rate
    applied to the ceiling, and it is exactly the latter once the gross
    salary reaches the ceiling. *)
Theorem ceilings_cap_socso_and_eis (form : Form) :
  0 <= socsoRate form -> 0 <= eisRate form ->
  socso form <= gross form * (socsoRate form / 100) /\
  socso form <= socsoCeiling form * (socsoRate form / 100) /\
  eis form <= gross form * (eisRate form / 100) /\
  eis form <= eisCeiling form * (eisRate form / 100) /\
  (socsoCeiling form <= gross form ->
     socso form == socsoCeiling form * (socsoRate form / 100)) /\
  (eisCeiling form <= gross form ->
     eis form == eisCeiling form * (eisRate form / 100)).
Proof.
  intros Hs Hi. unfold socso, eis.
  set (g := gross form).
  assert (Hcap : forall c r, 0 <= r ->
            Math_min g c * (r / 100) <= g * (r / 100) /\
            Math_min g c * (r / 100) <= c * (r / 100) /\
            (c <= g -> Math_min g c * (r / 100) == c * (r / 100))).
  { intros c r Hr. destruct (Math_min_bounds g c) as (Hg & Hc & _).
    pose proof (percent_nonneg r Hr).
    split; [ | split].
    - apply Qmult_le_compat_r; assumption.
    - apply Qmult_le_compat_r; assumption.
    - intros Hle. destruct (Math_min_spec g c) as [[? ->]|[? ->]];
        [assert (g == c) as -> by lra | ]; reflexivity. }
  destruct (Hcap (socsoCeiling form) (socsoRate form) Hs) as (A1 & A2 & A3).
  destruct (Hcap (eisCeiling form) (eisRate form) Hi) as (B1 & B2 & B3).
  repeat split; assumption.
Qed.

(** The default form with a salary of 8000. *)
Lemma ceilings_cap_socso_and_eis_witness :
  0 <= socsoRate (set_salary getDefaultForm (FNum 8000)) /\
  0 <= eisRate (set_salary getDefaultForm (FNum 8000)) /\
  socso (set_salary getDefaultForm (FNum 8000))
    <= socsoCeiling (set_salary getDefaultForm (FNum 8000))
       * (socsoRate (set_salary getDefaultForm (FNum 8000)) / 100).
Proof.
  assert (H1 : 0 <= socsoRate (set_salary getDefaultForm (FNum 8000))) by (cbn; lra).
  assert (H2 : 0 <= eisRate (set_salary getDefaultForm (FNum 8000))) by (cbn; lra).
  split; [exact H1 | split; [exact H2 | ] ].
  exact (proj1 (proj2
    (ceilings_cap_socso_and_eis (set_salary getDefaultForm (FNum 8000)) H1 H2))).
Defined.

(** ** The formula selection and the allocation, continued *)

Lemma net_nonneg (form : Form) : 0 <= net form.
Proof. apply Math_max_ge_l. Qed.

(** X22. Without net income nothing is divided: when the net salary is 0
    the necessity percentage is 0 whatever the necessities are, the formula
    is the preset 50 / 30 / 20, and the three amounts are 0. *)
Theorem no_net_income (form : Form) :
  net form <= 0 ->
  necessityPct form = 0 /\
  chosenFormula form = preset_50_30_20 /\
  needsAmount (allocations form) == 0 /\
  wantsAmount (allocations form) == 0 /\
  savingsAmount (allocations form) == 0.
Proof.
  intros H. pose proof (net_nonneg form) as Hn.
  assert (Hpct : necessityPct form = 0).
  { unfold necessityPct. destruct (Qlt_bool_spec 0 (net form)); [lra | reflexivity]. }
  assert (Hf : chosenFormula form = preset_50_30_20).
  { unfold chosenFormula. rewrite Hpct. vm_compute. reflexivity. }
  assert (H0 : net form == 0) by lra.
  unfold allocations. rewrite Hf.
  cbn [needsAmount wantsAmount savingsAmount preset_50_30_20 needs wants savings].
  rewrite H0. repeat split; try assumption; ring.
Qed.

(** The salary field left blank, with 500 of housing. *)
Lemma no_net_income_witness :
  net (set_salary (spending 500) FBlank) <= 0 /\
  necessityPct (set_salary (spending 500) FBlank) = 0 /\
  chosenFormula (set_salary (spending 500) FBlank) = preset_50_30_20.
Proof.
  assert (H : net (set_salary (spending 500) FBlank) <= 0) by (vm_compute; discriminate).
  split; [exact H | ].
  destruct (no_net_income (set_salary (spending 500) FBlank) H) as (H1 & H2 & _).
  split; assumption.
Defined.

(** X23. The preset chosen is the smallest sufficient one: for a necessity
    percentage of at most 70 the formula is one of the three presets, its
    needs share covers the percentage, and no preset that covers the
    percentage has a smaller needs share. *)
Theorem smallest_sufficient_preset (pct : Q) :
  pct <= 70 ->
  In (chosenFormula_at pct) DEFAULT_FORMULAS /\
  pct <= needs (chosenFormula_at pct) /\
  (forall f, In f DEFAULT_FORMULAS -> pct <= needs f ->
     needs (chosenFormula_at pct) <= needs f).
Proof.
  intros H. unfold chosenFormula_at.
  destruct (preset_search pct) as [[? ->]|[[? ->]|[[? ->]|[? _]]]]; [ | | | lra];
    cbn [nth_error DEFAULT_FORMULAS needs];
    (split; [cbn; tauto | split; [lra | ] ]);
    intros f [<-|[<-|[<-|[]]]] Hf; cbn [needs] in *; lra.
Qed.

(** A necessity percentage of 65 gets the preset 70 / 20 / 10. *)
Lemma smallest_sufficient_preset_witness :
  65 <= 70 /\
  In (chosenFormula_at 65) DEFAULT_FORMULAS /\
  65 <= needs (chosenFormula_at 65) /\
  (forall f, In f DEFAULT_FORMULAS -> 65 <= needs f ->
     needs (chosenFormula_at 65) <= needs f).
Proof.
  split; [lra | apply (smallest_sufficient_preset 65); lra].
Defined.

Lemma necessityPct_pos (form : Form) :
  0 < net form -> necessityPct form = necessities form / net form * 100.
Proof.
  intros H. unfold necessityPct.
  destruct (Qlt_bool_spec 0 (net form)); [reflexivity | lra].
Qed.

(** X25. When the necessities exceed the net income, everything goes to
    needs: the formula is the custom 100 / 0 / 0 and the needs amount is the
    whole net salary. *)
Theorem necessities_above_net (form : Form) :
  0 < net form -> net form < necessities form ->
  name (chosenFormula form) = "100 / 0 / 0 (custom)"%string /\
  needs (chosenFormula form) == 100 /\
  wants (chosenFormula form) == 0 /\
  savings (chosenFormula form) == 0 /\
  needsAmount (allocations form) == net form /\
  wantsAmount (allocations form) == 0 /\
  savingsAmount (allocations form) == 0.
Proof.
  intros Hnet Hgt.
  assert (Hpct : 100 < necessityPct form).
  { rewrite (necessityPct_pos form Hnet).
    set (n := net form) in *. set (t := necessities form) in *.
    assert (Hn0 : ~ n == 0) by lra.
    assert (E : t / n * 100 == 100 + (t - n) * (100 / n)) by (field; exact Hn0).
    assert (0 < (t - n) * (100 / n)).
    { apply Qmult_lt_0_compat; [lra | ].
      apply Qlt_shift_div_l; lra. }
    lra. }
  assert (Hf : chosenFormula form = chosenFormula_at 101).
  { unfold chosenFormula, chosenFormula_at.
    destruct (preset_search (necessityPct form)) as [[? _]|[[? _]|[[? _]|[_ ->]]]];
      try lra.
    assert (Hm : Math_min 100 (Math_ceil (necessityPct form)) = 100).
    { pose proof (Qle_ceiling (necessityPct form)). unfold Math_ceil, Math_min.
      destruct (Qle_bool_spec 100 (inject_Z (Qceiling (necessityPct form))));
        [reflexivity | lra]. }
    rewrite Hm. vm_compute. reflexivity. }
  unfold allocations. rewrite Hf.
  split; [vm_compute; reflexivity | ].
  split; [vm_compute; reflexivity | ].
  split; [vm_compute; reflexivity | ].
  split; [vm_compute; reflexivity | ].
  cbn [needsAmount wantsAmount savingsAmount].
  assert (E1 : needs (chosenFormula_at 101) == 100) by (vm_compute; reflexivity).
  assert (E2 : wants (chosenFormula_at 101) == 0) by (vm_compute; reflexivity).
  assert (E3 : savings (chosenFormula_at 101) == 0) by (vm_compute; reflexivity).
  rewrite E1, E2, E3. split; [field | split; field].
Qed.

(** A salary of 1000 without deductions and 1200 of housing. *)
Lemma necessities_above_net_witness :
  0 < net (spending 1200) /\ net (spending 1200) < necessities (spending 1200) /\
  name (chosenFormula (spending 1200)) = "100 / 0 / 0 (custom)"%string.
Proof.
  assert (H1 : 0 < net (spending 1200)) by reflexivity.
  assert (H2 : net (spending 1200) < necessities (spending 1200)) by reflexivity.
  split; [exact H1 | split; [exact H2 | ] ].
  exact (proj1 (necessities_above_net (spending 1200) H1 H2)).
Defined.

(** X26. The custom formula, for a necessity percentage above 70: its needs
    share is a whole number above 70 and at most 100, so the formula is
    none of the presets; its savings share is 10 as long as needs is at most
    90, with the rest for wants; above 90 wants is 0 and savings is what
    needs leaves.  Savings is never the 20 the source starts from. *)
Theorem custom_formula_shape (pct : Q) :
  70 < pct ->
  let f := chosenFormula_at pct in
  (exists z : Z, needs f = inject_Z z) /\
  70 < needs f <= 100 /\
  ~ In f DEFAULT_FORMULAS /\
  savings f <= 10 /\
  (needs f <= 90 -> savings f == 10 /\ wants f == 90 - needs f) /\
  (90 < needs f -> wants f == 0 /\ savings f == 100 - needs f).
Proof.
  intros Hgt f. subst f.
  destruct (chosenFormula_at_custom pct Hgt) as (Hn & Hs & Hw).
  pose proof (custom_needs_range pct Hgt) as Hr.
  rewrite Hn, Hs, Hw. clear Hs Hw.
  set (n := Math_min 100 (Math_ceil pct)) in *.
  split.
  { subst n. unfold Math_min, Math_ceil.
    destruct (Qle_bool 100 (inject_Z (Qceiling pct)));
      [exists 100%Z | exists (Qceiling pct)]; reflexivity. }
  split; [exact Hr | ].
  split.
  { intros [E|[E|[E|[]]]]; rewrite <- E in Hn; cbn [needs] in Hn;
      rewrite <- Hn in Hr; lra. }
  destruct (Qlt_bool_spec (100 - n - 10) 0);
    [destruct (Math_max_spec 0 (100 - n)) as [[? ->]|[? ->]] | ];
    (split; [lra | split; intros; split; lra]).
Qed.

(** A necessity percentage of 85. *)
Lemma custom_formula_shape_witness :
  70 < 85 /\ 70 < needs (chosenFormula_at 85) <= 100 /\
  savings (chosenFormula_at 85) <= 10.
Proof.
  assert (H : 70 < 85) by reflexivity.
  split; [exact H | ].
  destruct (custom_formula_shape 85 H) as (_ & H1 & _ & H2 & _).
  split; assumption.
Defined.

(** X27. With non-negative rates and ceilings, each of the three amounts
    lies between 0 and the net salary, whatever the salary and the
    necessities. *)
Theorem amounts_within_net (form : Form) :
  0 <= epfRate form -> 0 <= socsoRate form -> 0 <= eisRate form ->
  0 <= socsoCeiling form -> 0 <= eisCeiling form ->
  0 <= needsAmount (allocations form) <= net form /\
  0 <= wantsAmount (allocations form) <= net form /\
  0 <= savingsAmount (allocations form) <= net form.
Proof.
  intros _ _ _ _ _.
  unfold allocations. cbn [needsAmount wantsAmount savingsAmount].
  destruct (chosenFormula_at_range (necessityPct form)) as (Hn & Hw & Hs & _).
  fold (chosenFormula form) in Hn, Hw, Hs.
  pose proof (net_nonneg form) as Hnet.
  assert (H : forall k, 0 <= k <= 100 -> 0 <= k / 100 * net form <= net form).
  { intros k Hk. rewrite percent_eq.
    assert (0 <= (k * (1 # 100)) * net form) by (apply Qmult_le_0_compat; lra).
    assert (0 <= (1 - k * (1 # 100)) * net form) by (apply Qmult_le_0_compat; lra).
    assert (E : (1 - k * (1 # 100)) * net form
                == net form - k * (1 # 100) * net form) by ring.
    lra. }
  repeat split; apply H; assumption.
Qed.

(** The default rates, a salary of 8000 and 5000 of housing: the net salary
    is 7078 and the formula the custom 71 / 19 / 10. *)
Lemma amounts_within_net_witness :
  0 <= epfRate salary_8000_housing_5000 /\
  0 <= socsoRate salary_8000_housing_5000 /\
  0 <= eisRate salary_8000_housing_5000 /\
  0 <= socsoCeiling salary_8000_housing_5000 /\
  0 <= eisCeiling salary_8000_housing_5000 /\
  name (chosenFormula salary_8000_housing_5000) = "71 / 19 / 10 (custom)"%string /\
  0 <= needsAmount (allocations salary_8000_housing_5000)
    <= net salary_8000_housing_5000.
Proof.
  assert (H1 : 0 <= epfRate salary_8000_housing_5000) by (cbn; lra).
  assert (H2 : 0 <= socsoRate salary_8000_housing_5000) by (cbn; lra).
  assert (H3 : 0 <= eisRate salary_8000_housing_5000) by (cbn; lra).
  assert (H4 : 0 <= socsoCeiling salary_8000_housing_5000) by (cbn; lra).
  assert (H5 : 0 <= eisCeiling salary_8000_housing_5000) by (cbn; lra).
  split; [exact H1 | split; [exact H2 | split; [exact H3 |
    split; [exact H4 | split; [exact H5 | split; [vm_compute; reflexivity | ] ] ] ] ] ].
  exact (proj1 (amounts_within_net salary_8000_housing_5000 H1 H2 H3 H4 H5)).
Defined.
